(** * esgreport: the OTP / session servers of [server/main.py] and
      [server/newMain.py]

    A shallow embedding of the two FastAPI variants.  The three module
    level dictionaries ([otp_store], [rate_limit_store], [user_sessions])
    become one [state] record of finite maps that every handler takes and
    returns.  What a handler reads from outside the process is an explicit
    argument: every clock reading ([time.time()], [datetime.utcnow()]) in
    the order the handler takes them, the draw of [random.randint], the
    value of [GMAIL_TOKEN] and the outcome of the mail transport.  What the
    process fixes when it starts (the signing secret, [SMTP_USER]) and the
    libraries whose code is not in the repository (PyJWT, the Google
    client) are a type class.  Clock readings are whole seconds. *)

From stdpp Require Import base gmap strings pretty sorting.
From Stdlib Require Import ZArith Lia Ascii.

Open Scope Z_scope.

(** ** Python values, JSON bodies, exceptions *)

(** The values a JWT claim takes in this program. *)
Inductive pyval :=
  | PNone
  | PStr (s : string)
  | PInt (n : Z).

(** Python truthiness, as used by [if not email]. *)
Definition truthy (v : pyval) : bool :=
  match v with
  | PNone => false
  | PStr s => negb (String.eqb s "")
  | PInt n => negb (n =? 0)
  end.

Definition of_optional (o : option string) : pyval :=
  match o with
  | Some s => PStr s
  | None => PNone
  end.

(** A response body: the dict literal a handler returns. *)
#[warnings="-register-all"]
Inductive json :=
  | JNull
  | JBool (b : bool)
  | JNum (n : Z)
  | JStr (s : string)
  | JObj (fields : list (string * json)).

Definition json_of (v : pyval) : json :=
  match v with
  | PNone => JNull
  | PStr s => JStr s
  | PInt n => JNum n
  end.

Fixpoint assoc (k : string) (fields : list (string * json)) : option json :=
  match fields with
  | [] => None
  | (k', v) :: rest => if String.eqb k k' then Some v else assoc k rest
  end.

(** [body["k"]] on a response body. *)
Definition field (k : string) (body : json) : option json :=
  match body with
  | JObj fields => assoc k fields
  | _ => None
  end.

(** [LibraryError] is an exception raised inside a library call, by the
    name of its class ([AttributeError], [ValueError], ...). *)
Inductive exn :=
  | HTTPException (status_code : Z) (detail : string)
  | RuntimeError (msg : string)
  | LibraryError (class_name : string).

Inductive result (A : Type) :=
  | Return (a : A)
  | Raise (e : exn).
Arguments Return {A} a.
Arguments Raise {A} e.

(** The status line the client sees: FastAPI answers an [HTTPException]
    with its status code and any other exception with 500. *)
Definition status_of {A} (r : result A) : Z :=
  match r with
  | Return _ => 200
  | Raise (HTTPException c _) => c
  | Raise (RuntimeError _) => 500
  | Raise (LibraryError _) => 500
  end.

(** ** The stores *)

Record otp_record := {
  code : string;
  expires : Z;
  attempts : Z;
  user_name : option string;
  company : option string
}.

Record rate_record := {
  last_request : Z;
  count : Z
}.

Record session_record := {
  token : string;
  session_expires : Z
}.

Record state := {
  otp_store : gmap string otp_record;
  rate_limit_store : gmap string rate_record;
  user_sessions : gmap string session_record
}.

Definition empty_state : state :=
  {| otp_store := ∅; rate_limit_store := ∅; user_sessions := ∅ |}.

Definition with_otp_store (f : gmap string otp_record → gmap string otp_record)
    (s : state) : state :=
  {| otp_store := f (otp_store s);
     rate_limit_store := rate_limit_store s;
     user_sessions := user_sessions s |}.

Definition with_rate_limit_store
    (f : gmap string rate_record → gmap string rate_record) (s : state) : state :=
  {| otp_store := otp_store s;
     rate_limit_store := f (rate_limit_store s);
     user_sessions := user_sessions s |}.

Definition with_user_sessions
    (f : gmap string session_record → gmap string session_record)
    (s : state) : state :=
  {| otp_store := otp_store s;
     rate_limit_store := rate_limit_store s;
     user_sessions := f (user_sessions s) |}.

(** [record["attempts"] += 1] on the dict that sits in [otp_store]. *)
Definition bump_attempts (r : otp_record) : otp_record :=
  {| code := code r; expires := expires r; attempts := attempts r + 1;
     user_name := user_name r; company := company r |}.

(** [v in user_sessions]: only a [str] can be one of the keys. *)
Definition session_of (v : pyval) (m : gmap string session_record)
    : option session_record :=
  match v with
  | PStr e => m !! e
  | _ => None
  end.

Definition drop_session (v : pyval) (m : gmap string session_record)
    : gmap string session_record :=
  match v with
  | PStr e => delete e m
  | _ => m
  end.

(** ** Request models *)

Record EmailRequest := {
  email : string;
  name : option string;
  req_company : option string
}.

Record VerifyRequest := {
  v_email : string;
  otp : string
}.

Record RefreshTokenRequest := {
  r_email : string
}.

(** ** The platform: environment and libraries *)

(** [JWT_SECRET] and [SMTP_USER] are read from the environment when the
    module is loaded; [SMTP_USER] is [None] when the variable is not set.
    [jwt_decode now token key] is [None] when [jwt.decode] raises a
    [PyJWTError] (bad signature, malformed token, [exp] in the past).
    [gmail_client text] stands for [json.loads],
    [Credentials.from_authorized_user_info] and [build] on the text of
    [GMAIL_TOKEN]: the class of the exception they raise on a text that is
    not an authorized-user record, [None] when they hand back a client. *)
Class Platform := {
  JWT_SECRET : string;
  SMTP_USER : option string;
  jwt_encode : gmap string pyval → string → string;
  jwt_decode : Z → string → string → option (gmap string pyval);
  gmail_client : string → option string
}.

(** [address.encode('ascii')] goes through. *)
Fixpoint is_ascii (s : string) : bool :=
  match s with
  | EmptyString => true
  | String (Ascii _ _ _ _ _ _ _ top) rest => negb top && is_ascii rest
  end.

(** [email.utils.formataddr((name, address))] for a display name without
    characters that need quoting, as both variants pass it: the address is
    encoded as ASCII first, which raises on [None] and on an address that
    is not ASCII. *)
Definition formataddr (name : string) (address : option string)
    : result string :=
  match address with
  | None => Raise (LibraryError "AttributeError")
  | Some a =>
      if is_ascii a then Return (name +:+ " <" +:+ a +:+ ">")
      else Raise (LibraryError "UnicodeEncodeError")
  end.

Definition ACCESS_TOKEN_EXPIRE_MINUTES : Z := 30.

(** [random.randint(lo, hi)] from an explicit draw. *)
Definition randint (lo hi draw : Z) : Z := lo + draw mod (hi - lo + 1).

(** [str(n)] for an integer. *)
Definition str (n : Z) : string := pretty n.

Definition generate_otp (draw : Z) : string := str (randint 100000 999999 draw).

(** ** [server/main.py] *)

Module Main.
Section Handlers.
Context `{Platform}.

Definition create_access_token (utcnow : Z) (data : gmap string pyval)
    (expires_delta : option Z) : string :=
  let expire :=
    match expires_delta with
    | Some d => if d =? 0 then utcnow + ACCESS_TOKEN_EXPIRE_MINUTES * 60
                else utcnow + d
    | None => utcnow + ACCESS_TOKEN_EXPIRE_MINUTES * 60
    end in
  let to_encode := <["exp" := PInt expire]> data in
  jwt_encode to_encode JWT_SECRET.

Definition verify_token (utcnow : Z) (tok : string) : pyval :=
  match jwt_decode utcnow tok JWT_SECRET with
  | Some payload =>
      match payload !! "sub" with
      | None => PNone
      | Some PNone => PNone
      | Some email => email
      end
  | None => PNone
  end.

(** Rate limiting: max 3 OTP requests per 15 minutes. *)
Definition check_rate_limit (email : string) (current_time : Z) (s : state)
    : bool * state :=
  match rate_limit_store s !! email with
  | Some r =>
      let last_request := last_request r in
      let count := count r in
      if current_time - last_request >? 900 then
        (true, with_rate_limit_store
                 (<[email := {| last_request := current_time; count := 1 |}]>) s)
      else if count >=? 3 then
        (false, s)
      else
        (true, with_rate_limit_store
                 (<[email := {| last_request := current_time;
                                count := count + 1 |}]>) s)
  | None =>
      (true, with_rate_limit_store
               (<[email := {| last_request := current_time; count := 1 |}]>) s)
  end.

(** The message is put together before the [try]: an exception of
    [formataddr] leaves [send_email].  The SMTP dialogue sits in the
    [try]; [smtp_ok] says whether it ran through without an exception. *)
Definition send_email (to_email otp : string) (user_name : option string)
    (smtp_ok : bool) : result bool :=
  match formataddr "Parksons Packaging" SMTP_USER with
  | Raise e => Raise e
  | Return from_header => if smtp_ok then Return true else Return false
  end.

Definition send_otp (request : EmailRequest) (t_limit t_issue draw : Z)
    (smtp_ok : bool) (s : state) : result json * state :=
  let '(admitted, s) := check_rate_limit (email request) t_limit s in
  if negb admitted then
    (Raise (HTTPException 429
       "Too many OTP requests. Please wait 15 minutes before trying again."), s)
  else
    let otp := generate_otp draw in
    let s := with_otp_store
               (<[email request := {| code := otp;
                                      expires := t_issue + 300;
                                      attempts := 0;
                                      user_name := name request;
                                      company := req_company request |}]>) s in
    match send_email (email request) otp (name request) smtp_ok with
    | Raise e => (Raise e, s)
    | Return true =>
        (Return (JObj [("success", JBool true);
                       ("message", JStr "OTP sent successfully");
                       ("expires_in", JNum 300)]), s)
    | Return false =>
        (Raise (HTTPException 500 "Failed to send email"),
         with_otp_store (delete (email request)) s)
    end.

Definition verify_otp (request : VerifyRequest) (t_check t_utc t_login : Z)
    (s : state) : result json * state :=
  match otp_store s !! v_email request with
  | None => (Raise (HTTPException 400 "No OTP sent for this email"), s)
  | Some record =>
      if t_check >? expires record then
        (Raise (HTTPException 400 "OTP has expired"),
         with_otp_store (delete (v_email request)) s)
      else if attempts record >=? 3 then
        (Raise (HTTPException 400
           "Too many failed attempts. Please request a new OTP."),
         with_otp_store (delete (v_email request)) s)
      else
        let record := bump_attempts record in
        let s := with_otp_store (<[v_email request := record]>) s in
        if negb (String.eqb (otp request) (code record)) then
          (Raise (HTTPException 400 "Invalid OTP"), s)
        else
          let access_token :=
            create_access_token t_utc
              (<["sub" := PStr (v_email request)]>
                 (<["name" := of_optional (user_name record)]>
                    (<["company" := of_optional (company record)]> ∅)))
              None in
          let s := with_user_sessions
                     (<[v_email request :=
                          {| token := access_token;
                             session_expires :=
                               t_login + ACCESS_TOKEN_EXPIRE_MINUTES * 60 |}]>)
                     s in
          let s := with_otp_store (delete (v_email request)) s in
          (Return (JObj [("success", JBool true);
                         ("message", JStr "OTP verified successfully");
                         ("access_token", JStr access_token);
                         ("token_type", JStr "bearer");
                         ("expires_in", JNum (ACCESS_TOKEN_EXPIRE_MINUTES * 60));
                         ("user_data",
                          JObj [("email", JStr (v_email request));
                                ("name", json_of (of_optional (user_name record)));
                                ("company",
                                 json_of (of_optional (company record)))])]),
           s)
  end.

Definition verify_token_endpoint (credentials : string) (t_utc t_now : Z)
    (s : state) : result json * state :=
  let email := verify_token t_utc credentials in
  if negb (truthy email) then
    (Raise (HTTPException 401 "Invalid or expired token"), s)
  else
    match session_of email (user_sessions s) with
    | None => (Raise (HTTPException 401 "Session not found"), s)
    | Some session =>
        if t_now >? session_expires session then
          (Raise (HTTPException 401 "Session expired"),
           with_user_sessions (drop_session email) s)
        else
          (Return (JObj [("success", JBool true);
                         ("message", JStr "Token is valid");
                         ("user_data", JObj [("email", json_of email)])]), s)
    end.

Definition refresh_token (request : RefreshTokenRequest) (t_now t_utc t_login : Z)
    (s : state) : result json * state :=
  match user_sessions s !! r_email request with
  | None => (Raise (HTTPException 401 "No active session found"), s)
  | Some session =>
      if t_now >? session_expires session then
        (Raise (HTTPException 401 "Session expired"),
         with_user_sessions (delete (r_email request)) s)
      else
        let access_token :=
          create_access_token t_utc (<["sub" := PStr (r_email request)]> ∅) None in
        let s := with_user_sessions
                   (<[r_email request :=
                        {| token := access_token;
                           session_expires :=
                             t_login + ACCESS_TOKEN_EXPIRE_MINUTES * 60 |}]>) s in
        (Return (JObj [("success", JBool true);
                       ("message", JStr "Token refreshed successfully");
                       ("access_token", JStr access_token);
                       ("token_type", JStr "bearer");
                       ("expires_in", JNum (ACCESS_TOKEN_EXPIRE_MINUTES * 60))]),
         s)
  end.

Definition logout (credentials : string) (t_utc : Z) (s : state)
    : result json * state :=
  let email := verify_token t_utc credentials in
  let s :=
    if truthy email && bool_decide (is_Some (session_of email (user_sessions s)))
    then with_user_sessions (drop_session email) s
    else s in
  (Return (JObj [("success", JBool true);
                 ("message", JStr "Logged out successfully")]), s).

End Handlers.
End Main.

(** ** [server/newMain.py] *)

Module NewMain.
Section Handlers.
Context `{Platform}.

Definition SENDER_EMAIL : option string := SMTP_USER.

(** [os.getenv("GMAIL_TOKEN")] is the argument.  Nothing in the function
    is guarded: on a token that is set, whatever the parser or the Google
    client raise leaves it as well. *)
Definition get_gmail_service (GMAIL_TOKEN : option string) : result unit :=
  match GMAIL_TOKEN with
  | None => Raise (RuntimeError "❌ GMAIL_TOKEN env variable not set")
  | Some creds_data =>
      if String.eqb creds_data "" then
        Raise (RuntimeError "❌ GMAIL_TOKEN env variable not set")
      else
        match gmail_client creds_data with
        | Some class_name => Raise (LibraryError class_name)
        | None => Return tt
        end
  end.

Definition create_access_token (utcnow : Z) (data : gmap string pyval)
    (expires_delta : option Z) : string :=
  let delta :=
    match expires_delta with
    | Some d => if d =? 0 then ACCESS_TOKEN_EXPIRE_MINUTES * 60 else d
    | None => ACCESS_TOKEN_EXPIRE_MINUTES * 60
    end in
  let expire := utcnow + delta in
  let to_encode := <["exp" := PInt expire]> data in
  jwt_encode to_encode JWT_SECRET.

Definition verify_token (utcnow : Z) (tok : string) : pyval :=
  match jwt_decode utcnow tok JWT_SECRET with
  | Some payload => default PNone (payload !! "sub")
  | None => PNone
  end.

Definition check_rate_limit (email : string) (current_time : Z) (s : state)
    : bool * state :=
  match rate_limit_store s !! email with
  | Some r =>
      let last_request := last_request r in
      let count := count r in
      if current_time - last_request >? 900 then
        (true, with_rate_limit_store
                 (<[email := {| last_request := current_time; count := 1 |}]>) s)
      else if count >=? 3 then
        (false, s)
      else
        (true, with_rate_limit_store
                 (<[email := {| last_request := current_time;
                                count := count + 1 |}]>) s)
  | None =>
      (true, with_rate_limit_store
               (<[email := {| last_request := current_time; count := 1 |}]>) s)
  end.

(** [get_gmail_service()] and then [formataddr] are called before the
    [try]: their exceptions leave [send_email]; only the API call is
    guarded, and [api_ok] says whether it ran through. *)
Definition send_email (to_email otp : string) (user_name : option string)
    (GMAIL_TOKEN : option string) (api_ok : bool) : result bool :=
  match get_gmail_service GMAIL_TOKEN with
  | Raise e => Raise e
  | Return service =>
      match formataddr "Parksons Packaging" SENDER_EMAIL with
      | Raise e => Raise e
      | Return from_header => if api_ok then Return true else Return false
      end
  end.

Definition send_otp (request : EmailRequest) (t_limit t_issue draw : Z)
    (GMAIL_TOKEN : option string) (api_ok : bool) (s : state)
    : result json * state :=
  let '(admitted, s) := check_rate_limit (email request) t_limit s in
  if negb admitted then
    (Raise (HTTPException 429 "Too many OTP requests. Try again later."), s)
  else
    let otp := generate_otp draw in
    let s := with_otp_store
               (<[email request := {| code := otp;
                                      expires := t_issue + 300;
                                      attempts := 0;
                                      user_name := name request;
                                      company := req_company request |}]>) s in
    match send_email (email request) otp (name request) GMAIL_TOKEN api_ok with
    | Raise e => (Raise e, s)
    | Return true =>
        (Return (JObj [("success", JBool true);
                       ("message", JStr "OTP sent");
                       ("expires_in", JNum 300)]), s)
    | Return false =>
        (Raise (HTTPException 500 "Failed to send email"),
         with_otp_store (delete (email request)) s)
    end.

Definition verify_otp (request : VerifyRequest) (t_check t_utc t_login : Z)
    (s : state) : result json * state :=
  match otp_store s !! v_email request with
  | None => (Raise (HTTPException 400 "No OTP sent"), s)
  | Some record =>
      if t_check >? expires record then
        (Raise (HTTPException 400 "OTP expired"),
         with_otp_store (delete (v_email request)) s)
      else if attempts record >=? 3 then
        (Raise (HTTPException 400 "Too many failed attempts"),
         with_otp_store (delete (v_email request)) s)
      else
        let record := bump_attempts record in
        let s := with_otp_store (<[v_email request := record]>) s in
        if negb (String.eqb (otp request) (code record)) then
          (Raise (HTTPException 400 "Invalid OTP"), s)
        else
          let token :=
            create_access_token t_utc
              (<["sub" := PStr (v_email request)]>
                 (<["name" := of_optional (user_name record)]>
                    (<["company" := of_optional (company record)]> ∅)))
              None in
          let s := with_user_sessions
                     (<[v_email request :=
                          {| token := token;
                             session_expires :=
                               t_login + ACCESS_TOKEN_EXPIRE_MINUTES * 60 |}]>)
                     s in
          let s := with_otp_store (delete (v_email request)) s in
          (Return (JObj [("success", JBool true);
                         ("message", JStr "OTP verified");
                         ("access_token", JStr token);
                         ("token_type", JStr "bearer");
                         ("expires_in",
                          JNum (ACCESS_TOKEN_EXPIRE_MINUTES * 60))]),
           s)
  end.

Definition verify_token_endpoint (credentials : string) (t_utc t_now : Z)
    (s : state) : result json * state :=
  let email := verify_token t_utc credentials in
  match (if truthy email then session_of email (user_sessions s) else None) with
  | None => (Raise (HTTPException 401 "Invalid or expired token"), s)
  | Some session =>
      if t_now >? session_expires session then
        (Raise (HTTPException 401 "Session expired"),
         with_user_sessions (drop_session email) s)
      else
        (Return (JObj [("success", JBool true);
                       ("message", JStr "Token is valid");
                       ("user_data", JObj [("email", json_of email)])]), s)
  end.

Definition refresh_token (request : RefreshTokenRequest) (t_now t_utc t_login : Z)
    (s : state) : result json * state :=
  match user_sessions s !! r_email request with
  | None => (Raise (HTTPException 401 "No active session"), s)
  | Some session =>
      if t_now >? session_expires session then
        (Raise (HTTPException 401 "Session expired"),
         with_user_sessions (delete (r_email request)) s)
      else
        let token :=
          create_access_token t_utc (<["sub" := PStr (r_email request)]> ∅) None in
        let s := with_user_sessions
                   (<[r_email request :=
                        {| token := token;
                           session_expires :=
                             t_login + ACCESS_TOKEN_EXPIRE_MINUTES * 60 |}]>) s in
        (Return (JObj [("success", JBool true);
                       ("message", JStr "Token refreshed");
                       ("access_token", JStr token)]), s)
  end.

Definition logout (credentials : string) (t_utc : Z) (s : state)
    : result json * state :=
  let email := verify_token t_utc credentials in
  let s :=
    if bool_decide (is_Some (session_of email (user_sessions s)))
    then with_user_sessions (drop_session email) s
    else s in
  (Return (JObj [("success", JBool true); ("message", JStr "Logged out")]), s).

End Handlers.
End NewMain.

(** ** A concrete platform for closed examples *)

(** Decimal digits at the head of a string, and what follows them. *)
Fixpoint read_digits (s : string) (acc : Z) : Z * string :=
  match s with
  | String c rest =>
      let n := Z.of_nat (nat_of_ascii c) in
      if (48 <=? n) && (n <=? 57) then read_digits rest (10 * acc + (n - 48))
      else (acc, s)
  | EmptyString => (acc, s)
  end.

(** The text of a JSON object with string values. *)
Definition json_text (fields : list (string * string)) : string :=
  let quote := String (Ascii false true false false false true false false) "" in
  let member := λ kv : string * string,
    quote +:+ kv.1 +:+ quote +:+ ": " +:+ quote +:+ kv.2 +:+ quote in
  "{" +:+ String.concat ", " (map member fields) +:+ "}".

(** The one text the Google client of the demo platform takes. *)
Definition authorized_user : string :=
  json_text [("refresh_token", "r"); ("client_id", "c"); ("client_secret", "s")].

(** A token is its expiry in decimal, the key and the subject, with bars
    between them; it decodes under the same key while [now < exp], as
    PyJWT checks [exp].  [SMTP_USER] is set, and the Google client takes
    [authorized_user] and raises [ValueError] on any other text. *)
Definition demo_platform : Platform :=
  {| JWT_SECRET := "your-secret-key-change-in-production";
     SMTP_USER := Some "noreply@example.com";
     jwt_encode := fun payload key =>
       match payload !! "sub", payload !! "exp" with
       | Some (PStr e), Some (PInt x) => pretty x +:+ "|" +:+ key +:+ "|" +:+ e
       | _, _ => ""
       end;
     jwt_decode := fun now tok key =>
       let '(x, rest) := read_digits tok 0 in
       match rest with
       | String "|" signed_part =>
           if String.prefix (key +:+ "|") signed_part && (now <? x)
           then Some (<["sub" :=
                          PStr (String.substring (String.length key + 1)
                                  (String.length signed_part
                                   - (String.length key + 1)) signed_part)]>
                        (<["exp" := PInt x]> ∅))
           else None
       | _ => None
       end;
     gmail_client := fun text =>
       if String.eqb text authorized_user then None else Some "ValueError" |}.

(** ** Both variants at once *)

Inductive variant := main_py | newMain_py.

Module Server.
Section Dispatch.
Context `{Platform}.

Definition check_rate_limit (v : variant) : string → Z → state → bool * state :=
  match v with
  | main_py => Main.check_rate_limit
  | newMain_py => NewMain.check_rate_limit
  end.

Definition verify_otp (v : variant)
    : VerifyRequest → Z → Z → Z → state → result json * state :=
  match v with
  | main_py => Main.verify_otp
  | newMain_py => NewMain.verify_otp
  end.

Definition verify_token (v : variant) : Z → string → pyval :=
  match v with
  | main_py => Main.verify_token
  | newMain_py => NewMain.verify_token
  end.

Definition verify_token_endpoint (v : variant)
    : string → Z → Z → state → result json * state :=
  match v with
  | main_py => Main.verify_token_endpoint
  | newMain_py => NewMain.verify_token_endpoint
  end.

Definition refresh_token (v : variant)
    : RefreshTokenRequest → Z → Z → Z → state → result json * state :=
  match v with
  | main_py => Main.refresh_token
  | newMain_py => NewMain.refresh_token
  end.

Definition logout (v : variant) : string → Z → state → result json * state :=
  match v with
  | main_py => Main.logout
  | newMain_py => NewMain.logout
  end.

(** [main.py] reads no [GMAIL_TOKEN]. *)
Definition send_email (v : variant) (to_email otp : string)
    (user_name : option string) (GMAIL_TOKEN : option string) (ok : bool)
    : result bool :=
  match v with
  | main_py => Main.send_email to_email otp user_name ok
  | newMain_py => NewMain.send_email to_email otp user_name GMAIL_TOKEN ok
  end.

Definition send_otp (v : variant) (request : EmailRequest)
    (t_limit t_issue draw : Z) (GMAIL_TOKEN : option string) (ok : bool)
    (s : state) : result json * state :=
  match v with
  | main_py => Main.send_otp request t_limit t_issue draw ok s
  | newMain_py => NewMain.send_otp request t_limit t_issue draw GMAIL_TOKEN ok s
  end.

End Dispatch.
End Server.

(** The error taxonomy of the HTTP surface, as the exception each variant
    raises for it. *)
Definition RateLimited (v : variant) : exn :=
  match v with
  | main_py =>
      HTTPException 429
        "Too many OTP requests. Please wait 15 minutes before trying again."
  | newMain_py => HTTPException 429 "Too many OTP requests. Try again later."
  end.

Definition SendFailed : exn := HTTPException 500 "Failed to send email".

Definition NoChallenge (v : variant) : exn :=
  match v with
  | main_py => HTTPException 400 "No OTP sent for this email"
  | newMain_py => HTTPException 400 "No OTP sent"
  end.

Definition Expired (v : variant) : exn :=
  match v with
  | main_py => HTTPException 400 "OTP has expired"
  | newMain_py => HTTPException 400 "OTP expired"
  end.

Definition AttemptsExhausted (v : variant) : exn :=
  match v with
  | main_py =>
      HTTPException 400 "Too many failed attempts. Please request a new OTP."
  | newMain_py => HTTPException 400 "Too many failed attempts"
  end.

Definition Mismatch : exn := HTTPException 400 "Invalid OTP".

Definition InvalidToken : exn := HTTPException 401 "Invalid or expired token".

Definition NoSession (v : variant) : exn :=
  match v with
  | main_py => HTTPException 401 "Session not found"
  | newMain_py => HTTPException 401 "Invalid or expired token"
  end.

Definition SessionExpired : exn := HTTPException 401 "Session expired".

(** A request at [t] opens a window: no record yet, or the stored
    timestamp is more than 900 seconds back. *)
Definition opens_window (e : string) (t : Z) (s : state) : Prop :=
  match rate_limit_store s !! e with
  | None => True
  | Some r => t - last_request r > 900
  end.

(** The rate record an admitted request that opens a window writes. *)
Definition opened (t : Z) : rate_record := {| last_request := t; count := 1 |}.

(** The rate record an admitted request inside a window writes. *)
Definition counted (t : Z) (r : rate_record) : rate_record :=
  {| last_request := t; count := count r + 1 |}.

(** The challenge [send_otp] writes before it calls [send_email]. *)
Definition issued (request : EmailRequest) (t_issue draw : Z) : otp_record :=
  {| code := generate_otp draw; expires := t_issue + 300; attempts := 0;
     user_name := name request; company := req_company request |}.

(** The identity of the closed examples, and its rate record after three
    requests at seconds 0, 500 and 1000. *)
Definition alice : string := "a@x.com".

Definition after_requests (v : variant) (times : list Z) (s : state) : state :=
  foldl (λ s t, (Server.check_rate_limit v alice t s).2) s times.

Definition three_requests (v : variant) : state :=
  after_requests v [0; 500; 1000] empty_state.

(** The claims [verify_otp] signs for a verified challenge. *)
Definition login_claims (e : string) (r : otp_record) : gmap string pyval :=
  <["sub" := PStr e]>
    (<["name" := of_optional (user_name r)]>
       (<["company" := of_optional (company r)]> ∅)).

(** What [create_access_token] returns when no [expires_delta] is given. *)
Definition signed `{Platform} (t_utc : Z) (data : gmap string pyval) : string :=
  jwt_encode (<["exp" := PInt (t_utc + 1800)]> data) JWT_SECRET.

(** The session [verify_otp] and [refresh_token] write. *)
Definition session_for `{Platform} (t_utc t_login : Z)
    (data : gmap string pyval) : session_record :=
  {| token := signed t_utc data; session_expires := t_login + 1800 |}.

(** A submission of [x] for [e] to [/verify-otp]. *)
Definition submit (e x : string) : VerifyRequest := {| v_email := e; otp := x |}.

(** A request of the closed examples, the credentials its Gmail variant
    finds in the environment, and the state after one delivered OTP. *)
Definition alice_request : EmailRequest :=
  {| email := alice; name := Some "Alice"; req_company := None |}.

Definition gmail_creds : option string := Some authorized_user.

Definition pending_state `{Platform} (v : variant) : state :=
  (Server.send_otp v alice_request 0 0 12345 gmail_creds true empty_state).2.

(** The identity has a session entry that has not run out at [now]. *)
Definition live_session (s : state) (e : string) (now : Z) : Prop :=
  ∃ session, user_sessions s !! e = Some session ∧ now ≤ session_expires session.

(** The body [/verify-token] answers with for a valid token of [e]. *)
Definition token_is_valid (e : string) : json :=
  JObj [("success", JBool true);
        ("message", JStr "Token is valid");
        ("user_data", JObj [("email", JStr e)])].

(** The claims [refresh_token] signs. *)
Definition refresh_claims (e : string) : gmap string pyval :=
  <["sub" := PStr e]> ∅.

(** Submissions of wrong codes for the identity of the closed examples. *)
Definition wrong_guesses `{Platform} (v : variant) (guesses : list string)
    (s : state) : state :=
  foldl (λ s w, (Server.verify_otp v (submit alice w) 10 10 10 s).2) s guesses.

(** The state after the identity of the closed examples has verified its
    OTP at second 10. *)
Definition logged_in_state `{Platform} (v : variant) : state :=
  (Server.verify_otp v (submit alice "112345") 10 10 10 (pending_state v)).2.

(** ** Runs of requests *)

(** One identity's requests to the rate limiter at the given times; the
    first component collects the times of the admitted ones, newest first. *)
Definition rate_step (v : variant) (e : string) (acc : list Z * state) (t : Z)
    : list Z * state :=
  let '(admitted, s) := Server.check_rate_limit v e t acc.2 in
  (if admitted then t :: acc.1 else acc.1, s).

Definition request_log (v : variant) (e : string) (times : list Z) (s : state)
    : list Z * state :=
  foldl (rate_step v e) ([], s) times.

(** A request to one of the five state-changing routes, with everything
    the handler reads from outside. *)
Inductive request :=
  | SendOtp (rq : EmailRequest) (t_limit t_issue draw : Z)
      (GMAIL_TOKEN : option string) (ok : bool)
  | VerifyOtp (rq : VerifyRequest) (t_check t_utc t_login : Z)
  | VerifyToken (credentials : string) (t_utc t_now : Z)
  | RefreshToken (rq : RefreshTokenRequest) (t_now t_utc t_login : Z)
  | Logout (credentials : string) (t_utc : Z).

Definition handle `{Platform} (v : variant) (q : request) (s : state)
    : result json * state :=
  match q with
  | SendOtp rq tl ti d g ok => Server.send_otp v rq tl ti d g ok s
  | VerifyOtp rq t u l => Server.verify_otp v rq t u l s
  | VerifyToken c u t => Server.verify_token_endpoint v c u t s
  | RefreshToken rq t u l => Server.refresh_token v rq t u l s
  | Logout c u => Server.logout v c u s
  end.

(** The state after a sequence of requests, served one after the other. *)
Definition serve `{Platform} (v : variant) (qs : list request) (s : state)
    : state :=
  foldl (λ s q, (handle v q s).2) s qs.

(** What the handlers keep true of the three stores. *)
Definition stores_ok (s : state) : Prop :=
  (∀ e r, rate_limit_store s !! e = Some r → 1 ≤ count r ≤ 3)
  ∧ (∀ e r, otp_store s !! e = Some r →
       0 ≤ attempts r ≤ 3 ∧ ∃ draw, code r = generate_otp draw).

(** A submission to [/verify-otp] with its three clock readings. *)
Record submission := {
  guess : string;
  at_check : Z;
  at_utc : Z;
  at_login : Z
}.

(** The submission got as far as the comparison of the codes. *)
Definition compared (r : result json) : bool :=
  match r with
  | Return _ => true
  | Raise (HTTPException c d) => (c =? 400) && String.eqb d "Invalid OTP"
  | Raise (RuntimeError _) => false
  | Raise (LibraryError _) => false
  end.

(** The results of a run of submissions for one identity. *)
Fixpoint submissions `{Platform} (v : variant) (e : string)
    (subs : list submission) (s : state) : list (result json) :=
  match subs with
  | [] => []
  | sub :: subs =>
      let out := Server.verify_otp v (submit e (guess sub))
                   (at_check sub) (at_utc sub) (at_login sub) s in
      out.1 :: submissions v e subs out.2
  end.

(** The comparisons a stored challenge still allows. *)
Definition guesses_left (e : string) (s : state) : nat :=
  match otp_store s !! e with
  | Some r => Z.to_nat (3 - attempts r)
  | None => 0
  end.

(** The three stores agree at one identity. *)
Definition same_at (e : string) (s s' : state) : Prop :=
  otp_store s' !! e = otp_store s !! e
  ∧ rate_limit_store s' !! e = rate_limit_store s !! e
  ∧ user_sessions s' !! e = user_sessions s !! e.

(** What a log of admitted times, newest first, and the identity's rate
    record keep from one request to the next. *)
Definition log_inv (e : string) (h : list Z) (s : state) : Prop :=
  StronglySorted (λ a b, b ≤ a) h
  ∧ (∀ i a d, h !! i = Some a → h !! (i + 3)%nat = Some d → a - d > 900)
  ∧ match h with
    | [] => rate_limit_store s !! e = None
    | h0 :: _ =>
        ∃ r, rate_limit_store s !! e = Some r
             ∧ last_request r = h0 ∧ 1 ≤ count r ≤ 3
             ∧ ∀ d, h !! Z.to_nat (count r) = Some d → h0 - d > 900
    end.

(** The identity a request acts for: the address in its body, or the
    subject [verify_token] reads from its bearer token. *)
Definition subject `{Platform} (v : variant) (q : request) : pyval :=
  match q with
  | SendOtp rq _ _ _ _ _ => PStr (email rq)
  | VerifyOtp rq _ _ _ => PStr (v_email rq)
  | VerifyToken c u _ => Server.verify_token v u c
  | RefreshToken rq _ _ _ => PStr (r_email rq)
  | Logout c u => Server.verify_token v u c
  end.

(** The exception of [/refresh-token] for an identity without session. *)
Definition NoActiveSession (v : variant) : exn :=
  match v with
  | main_py => HTTPException 401 "No active session found"
  | newMain_py => HTTPException 401 "No active session"
  end.


(** A state of the closed examples in which the identity has all three
    records: it asked for a code, logged in with it and asked again. *)
Definition returning_state `{Platform} (v : variant) : state :=
  serve v [SendOtp alice_request 0 0 12345 gmail_creds true;
           VerifyOtp (submit alice "112345") 10 10 10;
           SendOtp alice_request 20 20 54321 gmail_creds true] empty_state.

(** Two tokens of the identity of the closed examples on the demo
    platform: the one its login at second 10 hands out, which dies at
    second 1810, and one that lives to second 5000. *)
Definition login_token : string :=
  "1810|your-secret-key-change-in-production|a@x.com".

Definition long_token : string :=
  "5000|your-secret-key-change-in-production|a@x.com".

(** The state of the closed examples after the logged-in identity has
    refreshed its session at second 1000. *)
Definition refreshed_state `{Platform} (v : variant) : state :=
  (Server.refresh_token v {| r_email := alice |} 1000 1000 1000
     (logged_in_state v)).2.

(** * Properties *)

(** ** The rate limiter *)

Lemma check_rate_limit_same v :
  Server.check_rate_limit v = Main.check_rate_limit.
Proof. destruct v; reflexivity. Qed.

Lemma check_rate_limit_first v e t s :
  rate_limit_store s !! e = None →
  Server.check_rate_limit v e t s
  = (true, with_rate_limit_store (<[e := opened t]>) s).
Proof.
  intros Hnone. rewrite check_rate_limit_same.
  unfold Main.check_rate_limit. now rewrite Hnone.
Qed.

Lemma check_rate_limit_lapsed v e t s r :
  rate_limit_store s !! e = Some r →
  t - last_request r > 900 →
  Server.check_rate_limit v e t s
  = (true, with_rate_limit_store (<[e := opened t]>) s).
Proof.
  intros Hr Hgap. rewrite check_rate_limit_same.
  unfold Main.check_rate_limit. rewrite Hr. cbn zeta.
  destruct (Z.gtb_spec (t - last_request r) 900); [reflexivity | lia].
Qed.

Lemma check_rate_limit_within v e t s r :
  rate_limit_store s !! e = Some r →
  t - last_request r ≤ 900 →
  count r < 3 →
  Server.check_rate_limit v e t s
  = (true, with_rate_limit_store (<[e := counted t r]>) s).
Proof.
  intros Hr Hgap Hcount. rewrite check_rate_limit_same.
  unfold Main.check_rate_limit. rewrite Hr. cbn zeta.
  destruct (Z.gtb_spec (t - last_request r) 900); [lia |].
  destruct (Z.geb_spec (count r) 3); [lia | reflexivity].
Qed.

Lemma check_rate_limit_full v e t s r :
  rate_limit_store s !! e = Some r →
  t - last_request r ≤ 900 →
  3 ≤ count r →
  Server.check_rate_limit v e t s = (false, s).
Proof.
  intros Hr Hgap Hcount. rewrite check_rate_limit_same.
  unfold Main.check_rate_limit. rewrite Hr. cbn zeta.
  destruct (Z.gtb_spec (t - last_request r) 900); [lia |].
  destruct (Z.geb_spec (count r) 3); [reflexivity | lia].
Qed.

(** A denial can only come from the last branch. *)
Lemma check_rate_limit_denied v e t s :
  (Server.check_rate_limit v e t s).1 = false →
  ∃ r, rate_limit_store s !! e = Some r
       ∧ t - last_request r ≤ 900 ∧ 3 ≤ count r.
Proof.
  rewrite check_rate_limit_same. unfold Main.check_rate_limit.
  destruct (rate_limit_store s !! e) as [r|]; [| discriminate].
  cbn zeta.
  destruct (Z.gtb_spec (t - last_request r) 900); [discriminate |].
  destruct (Z.geb_spec (count r) 3); [| discriminate].
  intros _. exists r. repeat split; lia.
Qed.

Lemma check_rate_limit_denied_eq v e t s :
  (Server.check_rate_limit v e t s).1 = false →
  Server.check_rate_limit v e t s = (false, s).
Proof.
  intros Hdenied.
  destruct (check_rate_limit_denied v e t s Hdenied) as (r & Hr & Hgap & Hcount).
  now apply check_rate_limit_full with r.
Qed.

(** An admitted request stamps the record with its own time. *)
Lemma check_rate_limit_stamp v e t s :
  (Server.check_rate_limit v e t s).1 = true →
  last_request <$> rate_limit_store (Server.check_rate_limit v e t s).2 !! e
  = Some t.
Proof.
  rewrite check_rate_limit_same. unfold Main.check_rate_limit.
  destruct (rate_limit_store s !! e) as [r|]; cbn zeta.
  - destruct (_ >? _).
    + intros _. cbn. now rewrite lookup_insert_eq.
    + destruct (_ >=? _); [discriminate |].
      intros _. cbn. now rewrite lookup_insert_eq.
  - intros _. cbn. now rewrite lookup_insert_eq.
Qed.

Lemma rate_lookup_written e r s :
  rate_limit_store (with_rate_limit_store (<[e := r]>) s) !! e = Some r.
Proof. cbn. apply lookup_insert_eq. Qed.

(** C7: when [check_rate_limit] denies a request, the whole state, and so
    the identity's rate record, is returned as it was: the count is not
    incremented and the stored timestamp is not moved.  The denied record
    has [count >= 3] and at most 900 seconds since its timestamp, and a
    retry more than 900 seconds after that same timestamp is admitted and
    opens a new window. *)
Theorem denial_leaves_rate_window_unchanged v e t s :
  (Server.check_rate_limit v e t s).1 = false →
  (Server.check_rate_limit v e t s).2 = s
  ∧ ∃ r, rate_limit_store s !! e = Some r
         ∧ 3 ≤ count r ∧ t - last_request r ≤ 900
         ∧ rate_limit_store (Server.check_rate_limit v e t s).2 !! e = Some r
         ∧ ∀ t', t' - last_request r > 900 →
             Server.check_rate_limit v e t' (Server.check_rate_limit v e t s).2
             = (true, with_rate_limit_store (<[e := opened t']>) s).
Proof.
  intros Hdenied.
  destruct (check_rate_limit_denied v e t s Hdenied) as (r & Hr & Hgap & Hcount).
  rewrite (check_rate_limit_full v e t s r Hr Hgap Hcount). cbn [fst snd].
  split; [reflexivity |].
  exists r. repeat split; try assumption.
  intros t' Hlater. now apply check_rate_limit_lapsed with r.
Qed.

Lemma denial_leaves_rate_window_unchanged_witness :
  (Server.check_rate_limit newMain_py alice 1500 (three_requests newMain_py)).1
  = false
  ∧ (Server.check_rate_limit newMain_py alice 1500 (three_requests newMain_py)).2
    = three_requests newMain_py.
Proof.
  split; [reflexivity |].
  apply (denial_leaves_rate_window_unchanged newMain_py alice 1500
           (three_requests newMain_py)).
  reflexivity.
Defined.

(** C4, as stated, fails: three requests at seconds 0, 500 and 1000 are
    admitted, the record then carries the time of the third, not of the
    first, and a request at second 1500, more than 900 seconds after the
    first request of the window, is denied in both variants. *)
Lemma window_start_is_not_first_request :
  (rate_limit_store (after_requests main_py [0] empty_state) !! alice
   = Some {| last_request := 0; count := 1 |}
   ∧ rate_limit_store (three_requests main_py) !! alice
     = Some {| last_request := 1000; count := 3 |}
   ∧ 1500 - 0 > 900
   ∧ Server.check_rate_limit main_py alice 1500 (three_requests main_py)
     = (false, three_requests main_py))
  ∧ (rate_limit_store (after_requests newMain_py [0] empty_state) !! alice
     = Some {| last_request := 0; count := 1 |}
     ∧ rate_limit_store (three_requests newMain_py) !! alice
       = Some {| last_request := 1000; count := 3 |}
     ∧ 1500 - 0 > 900
     ∧ Server.check_rate_limit newMain_py alice 1500 (three_requests newMain_py)
       = (false, three_requests newMain_py)).
Proof. repeat split; vm_compute; reflexivity. Qed.

(** ** [send_otp] around the rate limiter *)

Section SendOtp.
Context `{Platform}.

Lemma send_otp_denied v rq tl ti d g ok s :
  (Server.check_rate_limit v (email rq) tl s).1 = false →
  Server.send_otp v rq tl ti d g ok s = (Raise (RateLimited v), s).
Proof.
  intros Hdenied.
  pose proof (check_rate_limit_denied_eq v (email rq) tl s Hdenied) as Hfull.
  destruct v; cbn [Server.send_otp Server.check_rate_limit] in *;
    unfold Main.send_otp, NewMain.send_otp; rewrite Hfull; reflexivity.
Qed.

(** C4 (amended): the timestamp of a rate record is that of the most recent
    admitted request, rewritten at every admission.  A 4th request within
    900 seconds of the 1st request of a window is denied, and [send_otp]
    answers it with 429; a request more than 900 seconds after the most
    recent admitted request is admitted and resets the record to
    [count = 1] with that request's time. *)
Theorem rate_window_runs_from_last_admitted_request v e s0 t1 t2 t3 t4 :
  opens_window e t1 s0 →
  t1 ≤ t2 → t2 ≤ t3 → t3 ≤ t4 → t4 - t1 ≤ 900 →
  let c1 := Server.check_rate_limit v e t1 s0 in
  let c2 := Server.check_rate_limit v e t2 c1.2 in
  let c3 := Server.check_rate_limit v e t3 c2.2 in
  let c4 := Server.check_rate_limit v e t4 c3.2 in
  (c1.1 = true
   ∧ rate_limit_store c1.2 !! e = Some {| last_request := t1; count := 1 |})
  ∧ (c2.1 = true
     ∧ rate_limit_store c2.2 !! e = Some {| last_request := t2; count := 2 |})
  ∧ (c3.1 = true
     ∧ rate_limit_store c3.2 !! e = Some {| last_request := t3; count := 3 |})
  ∧ c4 = (false, c3.2)
  ∧ (∀ rq ti d g ok, email rq = e →
       Server.send_otp v rq t4 ti d g ok c3.2 = (Raise (RateLimited v), c3.2))
  ∧ (∀ s t, (Server.check_rate_limit v e t s).1 = true →
       last_request <$> rate_limit_store (Server.check_rate_limit v e t s).2 !! e
       = Some t)
  ∧ (∀ s r t, rate_limit_store s !! e = Some r → t - last_request r > 900 →
       Server.check_rate_limit v e t s
       = (true, with_rate_limit_store
                  (<[e := {| last_request := t; count := 1 |}]>) s)).
Proof.
  intros Hopen H12 H23 H34 Hspan c1 c2 c3 c4.
  assert (Hc1 : c1 = (true, with_rate_limit_store (<[e := opened t1]>) s0)).
  { subst c1. unfold opens_window in Hopen.
    destruct (rate_limit_store s0 !! e) as [r0|] eqn:Hr0.
    - now apply check_rate_limit_lapsed with r0.
    - now apply check_rate_limit_first. }
  assert (Hr1 : rate_limit_store c1.2 !! e = Some (opened t1)).
  { rewrite Hc1. apply rate_lookup_written. }
  assert (Hc2 : c2 = (true, with_rate_limit_store
                              (<[e := counted t2 (opened t1)]>) c1.2)).
  { subst c2. apply check_rate_limit_within; [exact Hr1 | cbn; lia | cbn; lia]. }
  assert (Hr2 : rate_limit_store c2.2 !! e = Some (counted t2 (opened t1))).
  { rewrite Hc2. apply rate_lookup_written. }
  assert (Hc3 : c3 = (true, with_rate_limit_store
                              (<[e := counted t3 (counted t2 (opened t1))]>)
                              c2.2)).
  { subst c3. apply check_rate_limit_within; [exact Hr2 | cbn; lia | cbn; lia]. }
  assert (Hr3 : rate_limit_store c3.2 !! e
                = Some (counted t3 (counted t2 (opened t1)))).
  { rewrite Hc3. apply rate_lookup_written. }
  assert (Hc4 : c4 = (false, c3.2)).
  { subst c4. eapply check_rate_limit_full; [exact Hr3 | cbn; lia | cbn; lia]. }
  repeat split.
  - now rewrite Hc1.
  - exact Hr1.
  - now rewrite Hc2.
  - exact Hr2.
  - now rewrite Hc3.
  - exact Hr3.
  - exact Hc4.
  - intros rq ti d g ok <-.
    apply send_otp_denied. fold c4. now rewrite Hc4.
  - intros s t. apply check_rate_limit_stamp.
  - intros s r t Hr Hgap. now apply check_rate_limit_lapsed with r.
Qed.

End SendOtp.

(** ** The OTP ledger *)

Section Ledger.
Context `{Platform}.

Lemma create_access_token_default v t_utc data :
  match v with
  | main_py => Main.create_access_token t_utc data None
  | newMain_py => NewMain.create_access_token t_utc data None
  end = signed t_utc data.
Proof. destruct v; reflexivity. Qed.

Lemma verify_otp_no_challenge v e x t u l s :
  otp_store s !! e = None →
  Server.verify_otp v (submit e x) t u l s = (Raise (NoChallenge v), s).
Proof.
  intros Hnone.
  destruct v; cbn [Server.verify_otp];
    unfold Main.verify_otp, NewMain.verify_otp; cbn [v_email submit];
    rewrite Hnone; reflexivity.
Qed.

Lemma verify_otp_expired v e x t u l s r :
  otp_store s !! e = Some r →
  t > expires r →
  Server.verify_otp v (submit e x) t u l s
  = (Raise (Expired v), with_otp_store (delete e) s).
Proof.
  intros Hr Hlate.
  destruct v; cbn [Server.verify_otp];
    unfold Main.verify_otp, NewMain.verify_otp; cbn [v_email submit];
    rewrite Hr; destruct (Z.gtb_spec t (expires r)); solve [reflexivity | lia].
Qed.

Lemma verify_otp_exhausted v e x t u l s r :
  otp_store s !! e = Some r →
  t ≤ expires r →
  3 ≤ attempts r →
  Server.verify_otp v (submit e x) t u l s
  = (Raise (AttemptsExhausted v), with_otp_store (delete e) s).
Proof.
  intros Hr Hlive Hspent.
  destruct v; cbn [Server.verify_otp];
    unfold Main.verify_otp, NewMain.verify_otp; cbn [v_email submit];
    rewrite Hr; destruct (Z.gtb_spec t (expires r)); try lia;
    destruct (Z.geb_spec (attempts r) 3); solve [reflexivity | lia].
Qed.

Lemma verify_otp_mismatch v e x t u l s r :
  otp_store s !! e = Some r →
  t ≤ expires r →
  attempts r < 3 →
  x ≠ code r →
  Server.verify_otp v (submit e x) t u l s
  = (Raise Mismatch, with_otp_store (<[e := bump_attempts r]>) s).
Proof.
  intros Hr Hlive Hleft Hwrong.
  apply String.eqb_neq in Hwrong.
  destruct v; cbn [Server.verify_otp];
    unfold Main.verify_otp, NewMain.verify_otp; cbn [v_email otp submit];
    rewrite Hr; destruct (Z.gtb_spec t (expires r)); try lia;
    destruct (Z.geb_spec (attempts r) 3); try lia;
    cbn [code bump_attempts]; rewrite Hwrong; reflexivity.
Qed.

Lemma verify_otp_match v e t u l s r :
  otp_store s !! e = Some r →
  t ≤ expires r →
  attempts r < 3 →
  ∃ body,
    Server.verify_otp v (submit e (code r)) t u l s
    = (Return body,
       with_otp_store (delete e)
         (with_user_sessions (<[e := session_for u l (login_claims e r)]>)
            (with_otp_store (<[e := bump_attempts r]>) s)))
    ∧ field "success" body = Some (JBool true)
    ∧ field "access_token" body = Some (JStr (signed u (login_claims e r)))
    ∧ field "token_type" body = Some (JStr "bearer")
    ∧ field "expires_in" body = Some (JNum 1800)
    ∧ field "user_data" body
      = match v with
        | main_py =>
            Some (JObj [("email", JStr e);
                        ("name", json_of (of_optional (user_name r)));
                        ("company", json_of (of_optional (company r)))])
        | newMain_py => None
        end.
Proof.
  intros Hr Hlive Hleft.
  destruct v; cbn [Server.verify_otp];
    unfold Main.verify_otp, NewMain.verify_otp; cbn [v_email otp submit];
    rewrite Hr; destruct (Z.gtb_spec t (expires r)); try lia;
    destruct (Z.geb_spec (attempts r) 3); try lia;
    cbn [code bump_attempts user_name company]; rewrite String.eqb_refl;
    cbn [negb]; eexists; (split; [reflexivity |]);
    repeat split; reflexivity.
Qed.

End Ledger.

(** ** [send_otp] after admission *)

Section AfterAdmission.
Context `{Platform}.

(** [send_email] either lets an exception of the part before its [try]
    through, which is never an [HTTPException], or returns what the
    guarded call came to. *)
Lemma send_email_cases v e c n g ok :
  (∃ ex, Server.send_email v e c n g ok = Raise ex
         ∧ ∀ code detail, ex ≠ HTTPException code detail)
  ∨ Server.send_email v e c n g ok = Return ok.
Proof.
  assert (Hfrom : ∀ address,
            (∃ ex, formataddr "Parksons Packaging" address = Raise ex
                   ∧ ∀ code detail, ex ≠ HTTPException code detail)
            ∨ ∃ header, formataddr "Parksons Packaging" address = Return header).
  { intros [a|]; cbn; [destruct (is_ascii a) |]; eauto;
      left; eexists; (split; [reflexivity | discriminate]). }
  destruct v; cbn [Server.send_email].
  - unfold Main.send_email.
    destruct (Hfrom SMTP_USER) as [(ex & -> & Hex) | (header & ->)];
      [left; eauto | right; now destruct ok].
  - unfold NewMain.send_email, NewMain.get_gmail_service.
    destruct g as [creds|];
      [destruct (String.eqb creds "");
       [| destruct (gmail_client creds)] |];
      try (left; eexists; (split; [reflexivity | discriminate])).
    destruct (Hfrom NewMain.SENDER_EMAIL) as [(ex & -> & Hex) | (header & ->)];
      [left; eauto | right; now destruct ok].
Qed.

Lemma send_email_outcome v e c n g ok b :
  Server.send_email v e c n g ok = Return b → b = ok.
Proof.
  destruct (send_email_cases v e c n g ok) as [(ex & -> & _) | ->];
    congruence.
Qed.

(** An admitted [send_otp] by what [send_email] comes to. *)
Lemma send_otp_admitted v rq tl ti d g ok s :
  (Server.check_rate_limit v (email rq) tl s).1 = true →
  match Server.send_email v (email rq) (generate_otp d) (name rq) g ok with
  | Raise ex =>
      Server.send_otp v rq tl ti d g ok s
      = (Raise ex,
         with_otp_store (<[email rq := issued rq ti d]>)
           (Server.check_rate_limit v (email rq) tl s).2)
  | Return true =>
      ∃ body,
        Server.send_otp v rq tl ti d g ok s
        = (Return body,
           with_otp_store (<[email rq := issued rq ti d]>)
             (Server.check_rate_limit v (email rq) tl s).2)
        ∧ field "success" body = Some (JBool true)
        ∧ field "expires_in" body = Some (JNum 300)
  | Return false =>
      Server.send_otp v rq tl ti d g ok s
      = (Raise SendFailed,
         with_otp_store (delete (email rq))
           (with_otp_store (<[email rq := issued rq ti d]>)
              (Server.check_rate_limit v (email rq) tl s).2))
  end.
Proof.
  intros Hadm.
  destruct v; cbn [Server.send_otp Server.check_rate_limit Server.send_email] in *.
  - unfold Main.send_otp.
    destruct (Main.check_rate_limit (email rq) tl s) as [adm s1].
    cbn [fst snd] in *. subst adm. cbn [negb].
    destruct (Main.send_email _ _ _ ok) as [[|]|ex]; try reflexivity.
    eexists. split; [reflexivity |]. split; reflexivity.
  - unfold NewMain.send_otp.
    destruct (NewMain.check_rate_limit (email rq) tl s) as [adm s1].
    cbn [fst snd] in *. subst adm. cbn [negb].
    destruct (NewMain.send_email _ _ _ g ok) as [[|]|ex]; try reflexivity.
    eexists. split; [reflexivity |]. split; reflexivity.
Qed.

Lemma send_otp_sent v rq tl ti d g ok s :
  (Server.check_rate_limit v (email rq) tl s).1 = true →
  Server.send_email v (email rq) (generate_otp d) (name rq) g ok = Return true →
  ∃ body,
    Server.send_otp v rq tl ti d g ok s
    = (Return body,
       with_otp_store (<[email rq := issued rq ti d]>)
         (Server.check_rate_limit v (email rq) tl s).2)
    ∧ field "success" body = Some (JBool true)
    ∧ field "expires_in" body = Some (JNum 300).
Proof.
  intros Hadm Hsend.
  pose proof (send_otp_admitted v rq tl ti d g ok s Hadm) as Hrun.
  now rewrite Hsend in Hrun.
Qed.

Lemma send_otp_failed v rq tl ti d g ok s :
  (Server.check_rate_limit v (email rq) tl s).1 = true →
  Server.send_email v (email rq) (generate_otp d) (name rq) g ok = Return false →
  Server.send_otp v rq tl ti d g ok s
  = (Raise SendFailed,
     with_otp_store (delete (email rq))
       (with_otp_store (<[email rq := issued rq ti d]>)
          (Server.check_rate_limit v (email rq) tl s).2)).
Proof.
  intros Hadm Hsend.
  pose proof (send_otp_admitted v rq tl ti d g ok s Hadm) as Hrun.
  now rewrite Hsend in Hrun.
Qed.

(** An exception of the part of [send_email] before its [try] goes
    through [send_otp] past the clean-up branch: the client gets a 500
    that is not [SendFailed] and the challenge just written stays. *)
Lemma send_otp_raised v rq tl ti d g ok s ex :
  (Server.check_rate_limit v (email rq) tl s).1 = true →
  Server.send_email v (email rq) (generate_otp d) (name rq) g ok = Raise ex →
  Server.send_otp v rq tl ti d g ok s
  = (Raise ex,
     with_otp_store (<[email rq := issued rq ti d]>)
       (Server.check_rate_limit v (email rq) tl s).2)
  ∧ status_of (Server.send_otp v rq tl ti d g ok s).1 = 500
  ∧ ex ≠ SendFailed
  ∧ otp_store (Server.send_otp v rq tl ti d g ok s).2 !! email rq
    = Some (issued rq ti d).
Proof.
  intros Hadm Hsend.
  pose proof (send_otp_admitted v rq tl ti d g ok s Hadm) as Hrun.
  rewrite Hsend in Hrun. rewrite Hrun. cbn [fst snd].
  destruct (send_email_cases v (email rq) (generate_otp d) (name rq) g ok)
    as [(ex' & Hex' & Hclass) | Hret]; [| congruence].
  assert (ex' = ex) as -> by congruence.
  repeat split.
  - destruct ex as [code detail | msg | cls]; try reflexivity.
    now destruct (Hclass code detail).
  - apply Hclass.
  - cbn. apply lookup_insert_eq.
Qed.

(** [SendFailed] is raised on one path only: admitted, then [send_email]
    returned [False]. *)
Lemma send_otp_failed_inv v rq tl ti d g ok s :
  (Server.send_otp v rq tl ti d g ok s).1 = Raise SendFailed →
  (Server.check_rate_limit v (email rq) tl s).1 = true
  ∧ Server.send_email v (email rq) (generate_otp d) (name rq) g ok
    = Return false.
Proof.
  intros Hfailed.
  destruct (Server.check_rate_limit v (email rq) tl s).1 eqn:Hadm.
  - split; [reflexivity |].
    pose proof (send_otp_admitted v rq tl ti d g ok s Hadm) as Hrun.
    destruct (send_email_cases v (email rq) (generate_otp d) (name rq) g ok)
      as [(ex & Hex & Hclass) | Hret].
    + rewrite Hex in Hrun. rewrite Hrun in Hfailed. cbn [fst] in Hfailed.
      injection Hfailed as ->. now destruct (Hclass 500 "Failed to send email").
    + rewrite Hret in Hrun |- *. destruct ok; [| reflexivity].
      destruct Hrun as (body & Hrun & _). rewrite Hrun in Hfailed.
      discriminate.
  - rewrite (send_otp_denied v rq tl ti d g ok s Hadm) in Hfailed.
    destruct v; discriminate.
Qed.

Lemma check_rate_limit_frame v e t s :
  otp_store (Server.check_rate_limit v e t s).2 = otp_store s
  ∧ user_sessions (Server.check_rate_limit v e t s).2 = user_sessions s.
Proof.
  rewrite check_rate_limit_same. unfold Main.check_rate_limit.
  destruct (rate_limit_store s !! e) as [r|]; cbn zeta;
    [destruct (_ >? _); [| destruct (_ >=? _)] |]; split; reflexivity.
Qed.

(** Both variants: with [SMTP_USER] not set, [formataddr] raises before
    the [try] and an admitted [send_otp] that gets that far ends in its
    [AttributeError], with the challenge just written left in the ledger. *)
Lemma unset_sender_keeps_challenge v rq tl ti d g ok s :
  SMTP_USER = None →
  v = main_py ∨ NewMain.get_gmail_service g = Return tt →
  (Server.check_rate_limit v (email rq) tl s).1 = true →
  (Server.send_otp v rq tl ti d g ok s).1
  = Raise (LibraryError "AttributeError")
  ∧ otp_store (Server.send_otp v rq tl ti d g ok s).2 !! email rq
    = Some (issued rq ti d).
Proof.
  intros Hunset Hclient Hadm.
  assert (Hsend : Server.send_email v (email rq) (generate_otp d) (name rq) g ok
                  = Raise (LibraryError "AttributeError")).
  { destruct v; cbn [Server.send_email].
    - unfold Main.send_email. now rewrite Hunset.
    - destruct Hclient as [[=] | Hclient].
      unfold NewMain.send_email, NewMain.SENDER_EMAIL.
      now rewrite Hclient, Hunset. }
  destruct (send_otp_raised v rq tl ti d g ok s _ Hadm Hsend)
    as (Hrun & _ & _ & Hkept).
  split; [now rewrite Hrun | exact Hkept].
Qed.

(** [newMain.py]: on a [GMAIL_TOKEN] the Google client does not take,
    [get_gmail_service] raises before the [try] and an admitted [send_otp]
    ends in that exception, with the challenge left in the ledger. *)
Lemma refused_credentials_keep_challenge rq tl ti d creds cls ok s :
  creds ≠ "" →
  gmail_client creds = Some cls →
  (NewMain.check_rate_limit (email rq) tl s).1 = true →
  (NewMain.send_otp rq tl ti d (Some creds) ok s).1 = Raise (LibraryError cls)
  ∧ otp_store (NewMain.send_otp rq tl ti d (Some creds) ok s).2 !! email rq
    = Some (issued rq ti d).
Proof.
  intros Hne Hrefused Hadm.
  assert (Hsend : Server.send_email newMain_py (email rq) (generate_otp d)
                    (name rq) (Some creds) ok
                  = Raise (LibraryError cls)).
  { cbn [Server.send_email].
    unfold NewMain.send_email, NewMain.get_gmail_service.
    apply String.eqb_neq in Hne. now rewrite Hne, Hrefused. }
  destruct (send_otp_raised newMain_py rq tl ti d (Some creds) ok s _ Hadm Hsend)
    as (Hrun & _ & _ & Hkept).
  cbn [Server.send_otp] in Hrun, Hkept.
  split; [now rewrite Hrun | exact Hkept].
Qed.

(** C3 (amended): when an admitted [send_otp] has [send_email] return
    [False], the caller gets [SendFailed] (500) and the ledger is the one
    from before the request with the identity's entry deleted: no
    challenge for the identity remains (an earlier one is discarded as
    well), every other identity's entry is untouched, and where the
    identity had no challenge before, the ledger is as it was. *)
Theorem failed_send_leaves_no_challenge v rq tl ti d g ok s :
  (Server.check_rate_limit v (email rq) tl s).1 = true →
  Server.send_email v (email rq) (generate_otp d) (name rq) g ok = Return false →
  let out := Server.send_otp v rq tl ti d g ok s in
  out.1 = Raise SendFailed
  ∧ status_of out.1 = 500
  ∧ otp_store out.2 = delete (email rq) (otp_store s)
  ∧ otp_store out.2 !! email rq = None
  ∧ (∀ e', e' ≠ email rq → otp_store out.2 !! e' = otp_store s !! e')
  ∧ (otp_store s !! email rq = None → otp_store out.2 = otp_store s)
  ∧ user_sessions out.2 = user_sessions s.
Proof.
  intros Hadm Hsend out. subst out.
  rewrite (send_otp_failed v rq tl ti d g ok s Hadm Hsend).
  destruct (check_rate_limit_frame v (email rq) tl s) as [Hotp Hsess].
  cbn [fst snd with_otp_store otp_store user_sessions].
  rewrite Hotp, Hsess, delete_insert_eq.
  repeat split.
  - apply lookup_delete_eq.
  - intros e' Hother. now apply lookup_delete_ne.
  - apply delete_id.
Qed.

(** C10 (amended): a [send_otp] that fails with [SendFailed] was admitted,
    and the rate store it leaves is the one [check_rate_limit] wrote, not
    rolled back: the identity's timestamp is the time of the call, and its
    count is one higher than before when the call came at most 900 seconds
    after the stored timestamp, and 1 when the identity had no record or
    its window had lapsed. *)
Theorem failed_send_keeps_admission v rq tl ti d g ok s :
  (Server.send_otp v rq tl ti d g ok s).1 = Raise SendFailed →
  let out := Server.send_otp v rq tl ti d g ok s in
  (Server.check_rate_limit v (email rq) tl s).1 = true
  ∧ rate_limit_store out.2
    = rate_limit_store (Server.check_rate_limit v (email rq) tl s).2
  ∧ last_request <$> rate_limit_store out.2 !! email rq = Some tl
  ∧ (∀ r, rate_limit_store s !! email rq = Some r →
       tl - last_request r ≤ 900 →
       count <$> rate_limit_store out.2 !! email rq = Some (count r + 1))
  ∧ (∀ r, rate_limit_store s !! email rq = Some r →
       tl - last_request r > 900 →
       count <$> rate_limit_store out.2 !! email rq = Some 1)
  ∧ (rate_limit_store s !! email rq = None →
       count <$> rate_limit_store out.2 !! email rq = Some 1).
Proof.
  intros Hfailed out. subst out.
  destruct (send_otp_failed_inv v rq tl ti d g ok s Hfailed) as [Hadm Hsend].
  rewrite (send_otp_failed v rq tl ti d g ok s Hadm Hsend).
  cbn [fst snd with_otp_store rate_limit_store].
  split; [exact Hadm |]. split; [reflexivity |].
  split; [now apply check_rate_limit_stamp |].
  repeat split.
  - intros r Hr Hgap.
    destruct (Z_lt_le_dec (count r) 3) as [Hroom | Hfull].
    + rewrite (check_rate_limit_within v _ tl s r Hr Hgap Hroom).
      cbn. now rewrite lookup_insert_eq.
    + rewrite (check_rate_limit_full v _ tl s r Hr Hgap Hfull) in Hadm.
      discriminate.
  - intros r Hr Hgap.
    rewrite (check_rate_limit_lapsed v _ tl s r Hr Hgap).
    cbn. now rewrite lookup_insert_eq.
  - intros Hnone.
    rewrite (check_rate_limit_first v _ tl s Hnone).
    cbn. now rewrite lookup_insert_eq.
Qed.

End AfterAdmission.

(** ** Claims on the OTP ledger *)

Section LedgerClaims.
Context `{Platform}.

Lemma otp_lookup_written e r s :
  otp_store (with_otp_store (<[e := r]>) s) !! e = Some r.
Proof. cbn. apply lookup_insert_eq. Qed.

(** C2: the attempt is charged before the codes are compared and the
    budget is checked on entry.  On a fresh challenge within its lifetime,
    three wrong submissions each fail with [Mismatch] and leave
    [attempts = 3]; a 4th submission then fails with [AttemptsExhausted]
    whatever code it carries, the right one included, and removes the
    challenge; a right 3rd submission after two wrong ones succeeds. *)
Theorem attempt_charged_before_comparison v e s r w1 w2 w3 x
    t1 u1 l1 t2 u2 l2 t3 u3 l3 t4 u4 l4 :
  otp_store s !! e = Some r → attempts r = 0 →
  w1 ≠ code r → w2 ≠ code r → w3 ≠ code r →
  t1 ≤ expires r → t2 ≤ expires r → t3 ≤ expires r → t4 ≤ expires r →
  let a1 := Server.verify_otp v (submit e w1) t1 u1 l1 s in
  let a2 := Server.verify_otp v (submit e w2) t2 u2 l2 a1.2 in
  let a3 := Server.verify_otp v (submit e w3) t3 u3 l3 a2.2 in
  let a4 := Server.verify_otp v (submit e x) t4 u4 l4 a3.2 in
  let b3 := Server.verify_otp v (submit e (code r)) t3 u3 l3 a2.2 in
  a1.1 = Raise Mismatch ∧ a2.1 = Raise Mismatch ∧ a3.1 = Raise Mismatch
  ∧ attempts <$> otp_store a3.2 !! e = Some 3
  ∧ a4.1 = Raise (AttemptsExhausted v)
  ∧ otp_store a4.2 !! e = None
  ∧ status_of b3.1 = 200
  ∧ ∃ body, b3.1 = Return body
            ∧ field "access_token" body
              = Some (JStr (signed u3 (login_claims e r))).
Proof.
  intros Hr Hfresh Hw1 Hw2 Hw3 Ht1 Ht2 Ht3 Ht4 a1 a2 a3 a4 b3.
  set (r1 := bump_attempts r).
  set (r2 := bump_attempts r1).
  set (r3 := bump_attempts r2).
  assert (Ha1 : a1 = (Raise Mismatch, with_otp_store (<[e := r1]>) s)).
  { subst a1. apply verify_otp_mismatch; [exact Hr | exact Ht1 | lia | exact Hw1]. }
  assert (Hr1 : otp_store a1.2 !! e = Some r1).
  { rewrite Ha1. apply otp_lookup_written. }
  assert (Ha2 : a2 = (Raise Mismatch, with_otp_store (<[e := r2]>) a1.2)).
  { subst a2. apply verify_otp_mismatch;
      [exact Hr1 | exact Ht2 | cbn; lia | exact Hw2]. }
  assert (Hr2 : otp_store a2.2 !! e = Some r2).
  { rewrite Ha2. apply otp_lookup_written. }
  assert (Ha3 : a3 = (Raise Mismatch, with_otp_store (<[e := r3]>) a2.2)).
  { subst a3. apply verify_otp_mismatch;
      [exact Hr2 | exact Ht3 | cbn; lia | exact Hw3]. }
  assert (Hr3 : otp_store a3.2 !! e = Some r3).
  { rewrite Ha3. apply otp_lookup_written. }
  assert (Ha4 : a4 = (Raise (AttemptsExhausted v), with_otp_store (delete e) a3.2)).
  { subst a4. apply verify_otp_exhausted with r3;
      [exact Hr3 | exact Ht4 | cbn; lia]. }
  destruct (verify_otp_match v e t3 u3 l3 a2.2 r2 Hr2 Ht3 ltac:(cbn; lia))
    as (body & Hb3 & _ & Htok & _).
  change (code r2) with (code r) in Hb3. fold b3 in Hb3.
  rewrite Ha1, Ha2, Ha3, Ha4, Hb3. cbn [fst snd].
  repeat split.
  - rewrite Ha3 in Hr3. cbn [snd] in Hr3. rewrite Hr3. cbn. f_equal. lia.
  - cbn. apply lookup_delete_eq.
  - exists body. split; [reflexivity | exact Htok].
Qed.

(** C6: a challenge whose expiry has passed is answered with [Expired]
    whatever the supplied code and the attempts used so far, and is
    deleted; a later [send_otp] for the identity that the rate limiter
    admits and whose mail goes out answers 200 and records a fresh
    challenge. *)
Theorem expired_challenge_is_deleted v e x t u l s r :
  otp_store s !! e = Some r →
  t > expires r →
  let a := Server.verify_otp v (submit e x) t u l s in
  a.1 = Raise (Expired v)
  ∧ a.2 = with_otp_store (delete e) s
  ∧ otp_store a.2 !! e = None
  ∧ ∀ rq tl ti d g ok,
      email rq = e →
      (Server.check_rate_limit v e tl a.2).1 = true →
      Server.send_email v e (generate_otp d) (name rq) g ok = Return true →
      status_of (Server.send_otp v rq tl ti d g ok a.2).1 = 200
      ∧ otp_store (Server.send_otp v rq tl ti d g ok a.2).2 !! e
        = Some (issued rq ti d).
Proof.
  intros Hr Hlate a. subst a.
  rewrite (verify_otp_expired v e x t u l s r Hr Hlate). cbn [fst snd].
  split; [reflexivity |]. split; [reflexivity |].
  split; [cbn; apply lookup_delete_eq |].
  intros rq tl ti d g ok <- Hadm Hsend.
  destruct (send_otp_sent v rq tl ti d g ok _ Hadm Hsend) as (body & -> & _).
  split; [reflexivity |]. apply otp_lookup_written.
Qed.

(** C8: a submission of the exact code within the lifetime and the attempt
    budget succeeds and deletes the challenge, so the same code submitted
    again, at any time, fails with [NoChallenge]. *)
Theorem verification_is_one_shot v e s r t u l t' u' l' :
  otp_store s !! e = Some r →
  t ≤ expires r →
  attempts r < 3 →
  let a := Server.verify_otp v (submit e (code r)) t u l s in
  let b := Server.verify_otp v (submit e (code r)) t' u' l' a.2 in
  status_of a.1 = 200
  ∧ (∃ body, a.1 = Return body
             ∧ field "access_token" body
               = Some (JStr (signed u (login_claims e r))))
  ∧ otp_store a.2 !! e = None
  ∧ user_sessions a.2 !! e = Some (session_for u l (login_claims e r))
  ∧ b = (Raise (NoChallenge v), a.2).
Proof.
  intros Hr Hlive Hleft a b.
  destruct (verify_otp_match v e t u l s r Hr Hlive Hleft)
    as (body & Ha & _ & Htok & _).
  fold a in Ha.
  assert (Hgone : otp_store a.2 !! e = None).
  { rewrite Ha. cbn. apply lookup_delete_eq. }
  subst b. rewrite (verify_otp_no_challenge v e (code r) t' u' l' a.2 Hgone).
  rewrite Ha in *. cbn [fst snd] in *.
  split; [reflexivity |].
  split; [exists body; split; [reflexivity | exact Htok] |].
  split; [exact Hgone |].
  split; [cbn; apply lookup_insert_eq | reflexivity].
Qed.

(** C9 (amended): a successful [verify_otp] answers, in both variants, with
    a body that holds [success], the [access_token] that was stored in the
    session, [token_type] bearer and [expires_in] 1800; [user_data] with
    the identity's email, name and company is in the body of [main.py]
    only, the body of [newMain.py] has no [user_data]. *)
Theorem verify_otp_success_body v rq t u l s body :
  (Server.verify_otp v rq t u l s).1 = Return body →
  field "success" body = Some (JBool true)
  ∧ (∃ tok, field "access_token" body = Some (JStr tok)
            ∧ token <$> user_sessions (Server.verify_otp v rq t u l s).2
                          !! v_email rq = Some tok)
  ∧ field "token_type" body = Some (JStr "bearer")
  ∧ field "expires_in" body = Some (JNum 1800)
  ∧ match v with
    | main_py =>
        ∃ r, otp_store s !! v_email rq = Some r
             ∧ field "user_data" body
               = Some (JObj [("email", JStr (v_email rq));
                             ("name", json_of (of_optional (user_name r)));
                             ("company", json_of (of_optional (company r)))])
    | newMain_py => field "user_data" body = None
    end.
Proof.
  destruct v; cbn [Server.verify_otp];
    unfold Main.verify_otp, NewMain.verify_otp;
    (destruct (otp_store s !! v_email rq) as [r|] eqn:Hr; [| discriminate]);
    (destruct (_ >? _); [discriminate |]);
    (destruct (_ >=? _); [discriminate |]);
    (destruct (negb _); [discriminate |]);
    cbn [fst snd]; intros [= <-].
  - repeat split; try reflexivity.
    + eexists. split; [reflexivity |]. cbn. now rewrite lookup_insert_eq.
    + exists r. split; reflexivity.
  - repeat split; try reflexivity.
    eexists. split; [reflexivity |]. cbn. now rewrite lookup_insert_eq.
Qed.

(** The code [send_otp] mailed, submitted within 300 seconds of its issue,
    is accepted. *)
Lemma mailed_code_is_accepted v rq tl ti d g ok s t u l :
  (Server.check_rate_limit v (email rq) tl s).1 = true →
  Server.send_email v (email rq) (generate_otp d) (name rq) g ok = Return true →
  t ≤ ti + 300 →
  status_of
    (Server.verify_otp v (submit (email rq) (generate_otp d)) t u l
       (Server.send_otp v rq tl ti d g ok s).2).1
  = 200.
Proof.
  intros Hadm Hsend Hlive.
  destruct (send_otp_sent v rq tl ti d g ok s Hadm Hsend) as (body & -> & _).
  cbn [snd].
  destruct (verify_otp_match v (email rq) t u l
              (with_otp_store (<[email rq := issued rq ti d]>)
                 (Server.check_rate_limit v (email rq) tl s).2)
              (issued rq ti d) (otp_lookup_written _ _ _) Hlive
              ltac:(cbn; lia))
    as (body' & Hok & _).
  change (code (issued rq ti d)) with (generate_otp d) in Hok.
  now rewrite Hok.
Qed.

End LedgerClaims.

Lemma randint_range lo hi draw :
  lo ≤ hi → lo ≤ randint lo hi draw ≤ hi.
Proof.
  intros Hle. unfold randint.
  pose proof (Z.mod_pos_bound draw (hi - lo + 1) ltac:(lia)). lia.
Qed.

(** ** Tokens and sessions *)

Section Sessions.
Context `{Platform}.

Lemma truthy_address e : e ≠ "" → truthy (PStr e) = true.
Proof.
  intros Hne. cbn. apply negb_true_iff. now apply String.eqb_neq.
Qed.

Lemma verify_token_endpoint_unsigned v tok tu tn s :
  truthy (Server.verify_token v tu tok) = false →
  Server.verify_token_endpoint v tok tu tn s = (Raise InvalidToken, s).
Proof.
  intros Hfalsy.
  destruct v; cbn [Server.verify_token_endpoint Server.verify_token] in *;
    unfold Main.verify_token_endpoint, NewMain.verify_token_endpoint;
    cbn zeta; rewrite Hfalsy; reflexivity.
Qed.

Lemma verify_token_endpoint_no_session v tok e tu tn s :
  Server.verify_token v tu tok = PStr e →
  e ≠ "" →
  user_sessions s !! e = None →
  Server.verify_token_endpoint v tok tu tn s = (Raise (NoSession v), s).
Proof.
  intros Hsub Hne Hnone. apply truthy_address in Hne.
  destruct v; cbn [Server.verify_token_endpoint Server.verify_token] in *;
    unfold Main.verify_token_endpoint, NewMain.verify_token_endpoint;
    cbn zeta; rewrite Hsub, Hne; cbn [negb session_of]; rewrite Hnone;
    reflexivity.
Qed.

Lemma verify_token_endpoint_session_expired v tok e tu tn s session :
  Server.verify_token v tu tok = PStr e →
  e ≠ "" →
  user_sessions s !! e = Some session →
  tn > session_expires session →
  Server.verify_token_endpoint v tok tu tn s
  = (Raise SessionExpired, with_user_sessions (delete e) s).
Proof.
  intros Hsub Hne Hsess Hlate. apply truthy_address in Hne.
  destruct v; cbn [Server.verify_token_endpoint Server.verify_token] in *;
    unfold Main.verify_token_endpoint, NewMain.verify_token_endpoint;
    cbn zeta; rewrite Hsub, Hne; cbn [negb session_of]; rewrite Hsess;
    destruct (Z.gtb_spec tn (session_expires session));
    solve [reflexivity | lia].
Qed.

Lemma verify_token_endpoint_valid v tok e tu tn s session :
  Server.verify_token v tu tok = PStr e →
  e ≠ "" →
  user_sessions s !! e = Some session →
  tn ≤ session_expires session →
  Server.verify_token_endpoint v tok tu tn s = (Return (token_is_valid e), s).
Proof.
  intros Hsub Hne Hsess Hlive. apply truthy_address in Hne.
  destruct v; cbn [Server.verify_token_endpoint Server.verify_token] in *;
    unfold Main.verify_token_endpoint, NewMain.verify_token_endpoint;
    cbn zeta; rewrite Hsub, Hne; cbn [negb session_of]; rewrite Hsess;
    destruct (Z.gtb_spec tn (session_expires session));
    solve [reflexivity | lia].
Qed.

Lemma refresh_token_live v e tr ur lr s session :
  user_sessions s !! e = Some session →
  tr ≤ session_expires session →
  ∃ body,
    Server.refresh_token v {| r_email := e |} tr ur lr s
    = (Return body,
       with_user_sessions (<[e := session_for ur lr (refresh_claims e)]>) s)
    ∧ field "access_token" body
      = Some (JStr (signed ur (refresh_claims e))).
Proof.
  intros Hsess Hlive.
  destruct v; cbn [Server.refresh_token];
    unfold Main.refresh_token, NewMain.refresh_token; cbn [r_email];
    rewrite Hsess; destruct (Z.gtb_spec tr (session_expires session));
    try lia; eexists; split; reflexivity.
Qed.

(** C1: a request to [/verify-token] whose token verifies with subject [e]
    fails with 401 whenever [e] has no live session: [NoSession] when the
    entry is absent, [SessionExpired] (and the entry is deleted) when it
    has run out; a token that verifies is not enough. *)
Theorem token_without_live_session_rejected v tok e tu tn s :
  Server.verify_token v tu tok = PStr e →
  ¬ live_session s e tn →
  let out := Server.verify_token_endpoint v tok tu tn s in
  status_of out.1 = 401
  ∧ (out.1 = Raise InvalidToken ∨ out.1 = Raise (NoSession v)
     ∨ out.1 = Raise SessionExpired)
  ∧ (e ≠ "" → user_sessions s !! e = None → out = (Raise (NoSession v), s))
  ∧ (e ≠ "" → is_Some (user_sessions s !! e) →
     out = (Raise SessionExpired, with_user_sessions (delete e) s)).
Proof.
  intros Hsub Hdead out. subst out.
  destruct (decide (e = "")) as [-> | Hne].
  - rewrite verify_token_endpoint_unsigned
      by (destruct v; cbn [Server.verify_token] in *; now rewrite Hsub).
    cbn [fst]. repeat split; try reflexivity; try (now left); congruence.
  - destruct (user_sessions s !! e) as [session|] eqn:Hsess.
    + assert (Hlate : tn > session_expires session).
      { destruct (Z_le_gt_dec tn (session_expires session)) as [Hle | Hgt];
          [| exact Hgt].
        exfalso. apply Hdead. exists session. now split. }
      rewrite (verify_token_endpoint_session_expired v tok e tu tn s session)
        by assumption.
      cbn [fst]. repeat split; try reflexivity; try (now right; right).
      intros _ [=].
    + rewrite (verify_token_endpoint_no_session v tok e tu tn s) by assumption.
      cbn [fst]. repeat split; try reflexivity.
      * destruct v; reflexivity.
      * now right; left.
      * intros _ [? [=]].
Qed.

Lemma verify_token_decoded v tu tok payload e :
  jwt_decode tu tok JWT_SECRET = Some payload →
  payload !! "sub" = Some (PStr e) →
  Server.verify_token v tu tok = PStr e.
Proof.
  intros Hdecode Hsub.
  destruct v; cbn [Server.verify_token];
    unfold Main.verify_token, NewMain.verify_token;
    now rewrite Hdecode, Hsub.
Qed.

Lemma verify_token_refused v tu tok :
  jwt_decode tu tok JWT_SECRET = None →
  Server.verify_token v tu tok = PNone.
Proof.
  intros Hdecode.
  destruct v; cbn [Server.verify_token];
    unfold Main.verify_token, NewMain.verify_token;
    now rewrite Hdecode.
Qed.

(** C5 (amended): [/verify-token] never looks at the token stored in the
    session.  Any token [jwt.decode] accepts with subject [e] is accepted
    while [e] has a live session, whatever token the session holds.  After
    a [/refresh-token], which overwrites the stored token, an earlier
    token is still accepted for as long as [jwt.decode] accepts it and the
    refreshed session has not run out; once [jwt.decode] refuses it, as it
    does from the token's own [exp] on, the answer is [InvalidToken],
    with the refreshed session live and left in place. *)
Theorem decoded_token_accepted_whatever_is_stored
    v tok e tu tn s session payload :
  jwt_decode tu tok JWT_SECRET = Some payload →
  payload !! "sub" = Some (PStr e) →
  e ≠ "" →
  user_sessions s !! e = Some session →
  tn ≤ session_expires session →
  Server.verify_token_endpoint v tok tu tn s = (Return (token_is_valid e), s)
  ∧ ∀ tr ur lr, tr ≤ session_expires session →
      let refreshed := (Server.refresh_token v {| r_email := e |} tr ur lr s).2 in
      user_sessions refreshed !! e
      = Some {| token := signed ur (refresh_claims e);
                session_expires := lr + 1800 |}
      ∧ ∀ tu' tn', tn' ≤ lr + 1800 →
          (∀ payload', jwt_decode tu' tok JWT_SECRET = Some payload' →
             payload' !! "sub" = Some (PStr e) →
             Server.verify_token_endpoint v tok tu' tn' refreshed
             = (Return (token_is_valid e), refreshed))
          ∧ (jwt_decode tu' tok JWT_SECRET = None →
             Server.verify_token_endpoint v tok tu' tn' refreshed
             = (Raise InvalidToken, refreshed)).
Proof.
  intros Hdecode Hsub Hne Hsess Hlive.
  split.
  { apply verify_token_endpoint_valid with session; try assumption.
    now apply verify_token_decoded with payload. }
  intros tr ur lr Htr refreshed. subst refreshed.
  destruct (refresh_token_live v e tr ur lr s session Hsess Htr)
    as (body & -> & _).
  cbn [snd].
  assert (Hnew : user_sessions
                   (with_user_sessions
                      (<[e := session_for ur lr (refresh_claims e)]>) s) !! e
                 = Some (session_for ur lr (refresh_claims e))).
  { cbn. apply lookup_insert_eq. }
  split; [exact Hnew |].
  intros tu' tn' Hlive'. split.
  - intros payload' Hdecode' Hsub'.
    apply verify_token_endpoint_valid
      with (session_for ur lr (refresh_claims e)); try assumption.
    now apply verify_token_decoded with payload'.
  - intros Hrefused. apply verify_token_endpoint_unsigned.
    now rewrite (verify_token_refused v tu' tok Hrefused).
Qed.

End Sessions.

(** ** Closed runs on the demo platform *)

Section Runs.
#[local] Existing Instance demo_platform.

Lemma rate_window_runs_from_last_admitted_request_witness :
  opens_window alice 0 empty_state
  ∧ Server.check_rate_limit main_py alice 300
      (after_requests main_py [0; 100; 200] empty_state)
    = (false, after_requests main_py [0; 100; 200] empty_state).
Proof.
  split; [exact I |].
  pose proof (@rate_window_runs_from_last_admitted_request demo_platform
                main_py alice empty_state 0 100 200 300 I
                ltac:(lia) ltac:(lia) ltac:(lia) ltac:(lia)) as Hrun.
  cbv zeta in Hrun.
  exact (proj1 (proj2 (proj2 (proj2 Hrun)))).
Defined.

(** C3, as stated, fails: with a challenge already pending for the
    identity, an admitted [send_otp] whose mail is not sent answers
    [SendFailed] and leaves the identity with no challenge at all, not with
    the ledger entry it had before the request. *)
Lemma failed_send_discards_pending_challenge :
  (otp_store (pending_state main_py) !! alice
   = Some (issued alice_request 0 12345)
   ∧ (Server.check_rate_limit main_py alice 60 (pending_state main_py)).1 = true
   ∧ (Server.send_otp main_py alice_request 60 60 54321 None false
        (pending_state main_py)).1 = Raise SendFailed
   ∧ otp_store (Server.send_otp main_py alice_request 60 60 54321 None false
                  (pending_state main_py)).2 !! alice
     ≠ otp_store (pending_state main_py) !! alice)
  ∧ (otp_store (pending_state newMain_py) !! alice
     = Some (issued alice_request 0 12345)
     ∧ (Server.check_rate_limit newMain_py alice 60
          (pending_state newMain_py)).1 = true
     ∧ (Server.send_otp newMain_py alice_request 60 60 54321 gmail_creds false
          (pending_state newMain_py)).1 = Raise SendFailed
     ∧ otp_store (Server.send_otp newMain_py alice_request 60 60 54321
                    gmail_creds false (pending_state newMain_py)).2 !! alice
       ≠ otp_store (pending_state newMain_py) !! alice).
Proof. repeat split; vm_compute; solve [reflexivity | discriminate]. Qed.

Lemma failed_send_leaves_no_challenge_witness :
  (Server.send_otp newMain_py alice_request 60 60 54321 gmail_creds false
     (pending_state newMain_py)).1 = Raise SendFailed.
Proof.
  apply (@failed_send_leaves_no_challenge demo_platform newMain_py alice_request 60 60 54321
           gmail_creds false (pending_state newMain_py));
    reflexivity.
Defined.

(** C10, as stated, fails: when the failed request is the one that resets
    a lapsed window, the count goes from 3 to 1, not to 4. *)
Lemma failed_send_after_lapsed_window :
  (rate_limit_store (three_requests main_py) !! alice
   = Some {| last_request := 1000; count := 3 |}
   ∧ (Server.send_otp main_py alice_request 2000 2000 12345 None false
        (three_requests main_py)).1 = Raise SendFailed
   ∧ rate_limit_store
       (Server.send_otp main_py alice_request 2000 2000 12345 None false
          (three_requests main_py)).2 !! alice
     = Some {| last_request := 2000; count := 1 |}
   ∧ count <$> rate_limit_store
                 (Server.send_otp main_py alice_request 2000 2000 12345 None
                    false (three_requests main_py)).2 !! alice
     ≠ (λ r, count r + 1) <$> rate_limit_store (three_requests main_py) !! alice)
  ∧ (rate_limit_store (three_requests newMain_py) !! alice
     = Some {| last_request := 1000; count := 3 |}
     ∧ (Server.send_otp newMain_py alice_request 2000 2000 12345 gmail_creds
          false (three_requests newMain_py)).1 = Raise SendFailed
     ∧ rate_limit_store
         (Server.send_otp newMain_py alice_request 2000 2000 12345 gmail_creds
            false (three_requests newMain_py)).2 !! alice
       = Some {| last_request := 2000; count := 1 |}
     ∧ count <$> rate_limit_store
                   (Server.send_otp newMain_py alice_request 2000 2000 12345
                      gmail_creds false (three_requests newMain_py)).2 !! alice
       ≠ (λ r, count r + 1)
           <$> rate_limit_store (three_requests newMain_py) !! alice).
Proof. repeat split; vm_compute; solve [reflexivity | discriminate]. Qed.

Lemma failed_send_keeps_admission_witness :
  count <$> rate_limit_store
              (Server.send_otp main_py alice_request 60 60 54321 None false
                 (pending_state main_py)).2 !! alice
  = Some 2.
Proof.
  refine (proj1 (proj2 (proj2 (proj2
            (@failed_send_keeps_admission demo_platform main_py alice_request 60 60 54321 None
               false (pending_state main_py) eq_refl))))
            {| last_request := 0; count := 1 |} eq_refl _).
  cbn. lia.
Defined.

Lemma attempt_charged_before_comparison_witness :
  (Server.verify_otp main_py (submit alice "112345") 40 40 40
     (wrong_guesses main_py ["000000"; "111111"; "999999"]
        (pending_state main_py))).1
  = Raise (AttemptsExhausted main_py)
  ∧ status_of
      (Server.verify_otp main_py (submit alice "112345") 10 10 10
         (wrong_guesses main_py ["000000"; "111111"]
            (pending_state main_py))).1
    = 200.
Proof.
  pose proof (@attempt_charged_before_comparison demo_platform main_py alice
                (pending_state main_py) (issued alice_request 0 12345)
                "000000" "111111" "999999" "112345"
                10 10 10 10 10 10 10 10 10 40 40 40
                eq_refl eq_refl
                ltac:(intros Heq; vm_compute in Heq; discriminate)
                ltac:(intros Heq; vm_compute in Heq; discriminate)
                ltac:(intros Heq; vm_compute in Heq; discriminate)
                ltac:(cbn; lia) ltac:(cbn; lia) ltac:(cbn; lia)
                ltac:(cbn; lia)) as Hrun.
  cbv zeta in Hrun.
  destruct Hrun as (_ & _ & _ & _ & Hfourth & _ & Hthird & _).
  split; [exact Hfourth | exact Hthird].
Defined.

Lemma expired_challenge_is_deleted_witness :
  (Server.verify_otp newMain_py (submit alice "112345") 301 301 301
     (pending_state newMain_py)).1
  = Raise (Expired newMain_py)
  ∧ status_of
      (Server.send_otp newMain_py alice_request 400 400 777 gmail_creds true
         (Server.verify_otp newMain_py (submit alice "112345") 301 301 301
            (pending_state newMain_py)).2).1
    = 200.
Proof.
  pose proof (@expired_challenge_is_deleted demo_platform newMain_py alice "112345" 301 301 301
                (pending_state newMain_py) (issued alice_request 0 12345))
    as Hrun.
  specialize (Hrun ltac:(vm_compute; reflexivity) ltac:(cbn; lia)).
  cbv zeta in Hrun. destruct Hrun as (Hexpired & _ & _ & Hfresh).
  split; [exact Hexpired |].
  apply (Hfresh alice_request 400 400 777 gmail_creds true); reflexivity.
Defined.

Lemma verification_is_one_shot_witness :
  Server.verify_otp newMain_py (submit alice "112345") 20 20 20
    (Server.verify_otp newMain_py (submit alice "112345") 10 10 10
       (pending_state newMain_py)).2
  = (Raise (NoChallenge newMain_py),
     (Server.verify_otp newMain_py (submit alice "112345") 10 10 10
        (pending_state newMain_py)).2).
Proof.
  apply (@verification_is_one_shot demo_platform newMain_py alice
           (pending_state newMain_py) (issued alice_request 0 12345)
           10 10 10 20 20 20);
    [vm_compute; reflexivity | |];
    cbn; lia.
Defined.

(** C9, as stated, fails: the 200 body of [newMain.py] for a successful
    [/verify-otp] has no [user_data], while that of [main.py] has one. *)
Lemma newMain_verify_otp_body_without_user_data :
  (∃ body,
     (Server.verify_otp newMain_py (submit alice "112345") 10 10 10
        (pending_state newMain_py)).1 = Return body
     ∧ field "user_data" body = None)
  ∧ (∃ body,
       (Server.verify_otp main_py (submit alice "112345") 10 10 10
          (pending_state main_py)).1 = Return body
       ∧ field "user_data" body
         = Some (JObj [("email", JStr alice);
                       ("name", JStr "Alice");
                       ("company", JNull)])).
Proof. split; eexists; split; vm_compute; reflexivity. Qed.

Lemma verify_otp_success_body_witness :
  ∃ body,
    (Server.verify_otp main_py (submit alice "112345") 10 10 10
       (pending_state main_py)).1 = Return body
    ∧ field "expires_in" body = Some (JNum 1800).
Proof.
  eexists. split; [vm_compute; reflexivity |].
  apply (@verify_otp_success_body demo_platform main_py (submit alice "112345") 10 10 10
           (pending_state main_py)).
  reflexivity.
Defined.

Lemma token_without_live_session_rejected_witness :
  Server.verify_token main_py 30 login_token = PStr alice
  ∧ status_of
      (Server.verify_token_endpoint main_py login_token 30 30
         (Server.logout main_py login_token 20 (logged_in_state main_py)).2).1
    = 401.
Proof.
  split; [reflexivity |].
  apply (@token_without_live_session_rejected demo_platform
           main_py login_token alice 30 30
           (Server.logout main_py login_token 20 (logged_in_state main_py)).2
           ltac:(reflexivity)).
  intros (session & Hsession & _). vm_compute in Hsession. discriminate.
Defined.

(** C5, as stated, fails: the identity logs in at second 10 and refreshes
    at second 1000, so its session lives to second 2800 and is not
    revoked; at second 2000 the token of the login, whose own [exp] is
    second 1810, is answered with 401 in both variants, while the token
    of the refresh is accepted. *)
Lemma earlier_token_dies_before_refreshed_session :
  (token <$> user_sessions (logged_in_state main_py) !! alice
   = Some login_token
   ∧ user_sessions (refreshed_state main_py) !! alice
     = Some {| token := signed 1000 (refresh_claims alice);
               session_expires := 2800 |}
   ∧ 2000 ≤ 2800
   ∧ Server.verify_token_endpoint main_py login_token 2000 2000
       (refreshed_state main_py)
     = (Raise InvalidToken, refreshed_state main_py)
   ∧ Server.verify_token_endpoint main_py (signed 1000 (refresh_claims alice))
       2000 2000 (refreshed_state main_py)
     = (Return (token_is_valid alice), refreshed_state main_py))
  ∧ (user_sessions (refreshed_state newMain_py) !! alice
     = Some {| token := signed 1000 (refresh_claims alice);
               session_expires := 2800 |}
     ∧ Server.verify_token_endpoint newMain_py login_token 2000 2000
         (refreshed_state newMain_py)
       = (Raise InvalidToken, refreshed_state newMain_py)).
Proof. repeat split; vm_compute; solve [reflexivity | discriminate]. Qed.

Lemma decoded_token_accepted_whatever_is_stored_witness :
  token <$> user_sessions (logged_in_state newMain_py) !! alice
  = Some login_token
  ∧ Server.verify_token_endpoint newMain_py long_token 30 30
      (logged_in_state newMain_py)
    = (Return (token_is_valid alice), logged_in_state newMain_py).
Proof.
  split; [reflexivity |].
  pose proof (@decoded_token_accepted_whatever_is_stored demo_platform
                newMain_py long_token alice 30 30 (logged_in_state newMain_py)
                {| token := login_token; session_expires := 1810 |}
                (<["sub" := PStr alice]> (<["exp" := PInt 5000]> ∅)))
    as Hrun.
  apply Hrun;
    first [ vm_compute; reflexivity
          | intros Heq; vm_compute in Heq; discriminate
          | cbn; lia ].
Defined.

End Runs.

(** * Further properties of the handlers *)

(** ** The rate limiter over a run of requests *)

Lemma rate_step_inv v e h s t :
  log_inv e h s →
  Forall (λ a, a ≤ t) h →
  log_inv e (rate_step v e (h, s) t).1 (rate_step v e (h, s) t).2
  ∧ Forall (λ a, a ≤ t) (rate_step v e (h, s) t).1.
Proof.
  intros (Hsorted & Hspaced & Hrec) Hpast.
  unfold rate_step. cbn [fst snd].
  destruct h as [|h0 tl].
  - rewrite (check_rate_limit_first v e t s Hrec). cbn [fst snd].
    split; [| repeat constructor; lia].
    split; [repeat constructor |].
    split; [intros [|i] a d; cbn; intros; discriminate |].
    exists (opened t). rewrite rate_lookup_written.
    repeat split; cbn; try lia. intros d [=].
  - destruct Hrec as (r & Hr & Hlast & Hcount & Hwindow).
    apply StronglySorted_cons in Hsorted as Hsorted'.
    destruct Hsorted' as [Hmax Htl].
    assert (Hh0 : h0 ≤ t) by (now inversion Hpast).
    destruct (Z_gt_le_dec (t - last_request r) 900) as [Hgap | Hgap].
    + rewrite (check_rate_limit_lapsed v e t s r Hr Hgap). cbn [fst snd].
      split; [| now constructor; [lia |]].
      split; [apply StronglySorted_cons; split; assumption |].
      split.
      * intros [|i] a d; cbn [lookup list_lookup Nat.add].
        -- intros [= <-] Hd.
           assert (d ≤ h0).
           { change ((h0 :: tl) !! 2%nat = Some d) in Hd.
             destruct tl as [|h1 [|h2 rest]]; try discriminate.
             injection Hd as ->. inversion Hmax as [|? ? _ Hmax']; subst.
             now inversion Hmax'. }
           lia.
        -- apply Hspaced.
      * exists (opened t). rewrite rate_lookup_written.
        repeat split; cbn; try lia. intros d [= <-]. lia.
    + destruct (Z_lt_le_dec (count r) 3) as [Hroom | Hfull].
      * rewrite (check_rate_limit_within v e t s r Hr Hgap Hroom).
        cbn [fst snd].
        split; [| now constructor; [lia |]].
        split; [apply StronglySorted_cons; split; assumption |].
        assert (Hnext : ∀ d, (h0 :: tl) !! Z.to_nat (count r) = Some d →
                             t - d > 900).
        { intros d Hd. specialize (Hwindow d Hd). lia. }
        split.
        -- intros [|i] a d; cbn [lookup list_lookup Nat.add].
           ++ intros [= <-] Hd.
              change ((h0 :: tl) !! 2%nat = Some d) in Hd.
              destruct tl as [|h1 [|h2 rest]]; try discriminate.
              injection Hd as ->.
              inversion Hmax as [|? ? Hh1 Hmax']; subst.
              inversion Hmax' as [|? ? Hh2 _]; subst.
              inversion Htl as [|? ? _ Hh12]; subst.
              inversion Hh12 as [|? ? Hd1 _]; subst.
              destruct (decide (count r = 1)) as [Hone | Htwo].
              ** rewrite Hone in Hnext. specialize (Hnext h1 eq_refl). lia.
              ** assert (count r = 2) as Hc by lia.
                 rewrite Hc in Hnext. specialize (Hnext d eq_refl). lia.
           ++ apply Hspaced.
        -- exists (counted t r). rewrite rate_lookup_written.
           repeat split; cbn [last_request count counted]; try lia.
           intros d. replace (Z.to_nat (count r + 1)) with (S (Z.to_nat (count r))) by lia.
           apply Hnext.
      * rewrite (check_rate_limit_full v e t s r Hr Hgap Hfull). cbn [fst snd].
        split; [| assumption].
        split; [assumption |]. split; [assumption |].
        exists r. repeat split; try assumption; lia.
Qed.

Lemma rate_step_log v e h s t :
  (rate_step v e (h, s) t).1 = h ∨ (rate_step v e (h, s) t).1 = t :: h.
Proof.
  unfold rate_step. cbn [snd fst].
  destruct (Server.check_rate_limit v e t s) as [[|] s']; cbn; auto.
Qed.

Lemma request_log_inv v e times :
  ∀ h s,
    log_inv e h s →
    Forall (λ t, Forall (λ a, a ≤ t) h) times →
    StronglySorted Z.le times →
    log_inv e (foldl (rate_step v e) (h, s) times).1
      (foldl (rate_step v e) (h, s) times).2.
Proof.
  induction times as [|t times IH]; intros h s Hinv Hpast Hsorted.
  - exact Hinv.
  - cbn [foldl].
    apply StronglySorted_cons in Hsorted as [Hlater Hsorted].
    inversion Hpast as [|? ? Ht Hrest]; subst.
    destruct (rate_step_inv v e h s t Hinv Ht) as [Hinv' _].
    pose proof (rate_step_log v e h s t) as Hlog.
    destruct (rate_step v e (h, s) t) as [h' s'] eqn:Hstep.
    cbn [fst snd] in *.
    apply IH; [exact Hinv' | | exact Hsorted].
    rewrite Forall_forall in Hrest, Hlater. apply Forall_forall.
    intros t' Hin. destruct Hlog as [-> | ->].
    + now apply Hrest.
    + constructor; [now apply Hlater | now apply Hrest].
Qed.

(** X1: over any run of requests of one identity at non-decreasing times,
    starting without a rate record, no four admitted requests fall within
    900 seconds: the admitted request three places after another one is
    more than 900 seconds later. *)
Theorem admitted_requests_are_spaced v e times s i a d :
  rate_limit_store s !! e = None →
  StronglySorted Z.le times →
  (request_log v e times s).1 !! i = Some a →
  (request_log v e times s).1 !! (i + 3)%nat = Some d →
  a - d > 900.
Proof.
  intros Hnone Hsorted.
  assert (Hinv : log_inv e [] s).
  { split; [constructor |]. split; [intros ? ? ? [=] | exact Hnone]. }
  destruct (request_log_inv v e times [] s Hinv) as (_ & Hspaced & _).
  - apply Forall_forall. intros. constructor.
  - exact Hsorted.
  - apply Hspaced.
Qed.

Lemma admitted_requests_are_spaced_witness :
  (request_log main_py alice [0; 500; 1000; 1500; 2000] empty_state).1
  = [2000; 1000; 500; 0]
  ∧ 2000 - 0 > 900.
Proof.
  split; [reflexivity |].
  apply (admitted_requests_are_spaced main_py alice [0; 500; 1000; 1500; 2000]
           empty_state 0 2000 0 eq_refl);
    [ repeat first [constructor | lia] | reflexivity | reflexivity ].
Defined.

(** ** What a request can touch *)

Section Frames.
Context `{Platform}.

Lemma same_at_refl e s : same_at e s s.
Proof. repeat split. Qed.

Lemma check_rate_limit_other v e t s e' :
  e ≠ e' → same_at e' s (Server.check_rate_limit v e t s).2.
Proof.
  intros Hne. rewrite check_rate_limit_same. unfold Main.check_rate_limit.
  destruct (rate_limit_store s !! e) as [r|]; cbn zeta;
    [destruct (_ >? _); [| destruct (_ >=? _)] |];
    repeat split; cbn; now rewrite ?lookup_insert_ne.
Qed.

(** X2: a request changes the records of its own identity only: for every
    other address the challenge, the rate record and the session are after
    the request what they were before, in both variants and on every
    path, the failing ones included. *)
Theorem request_touches_own_identity_only v q s e' :
  subject v q ≠ PStr e' →
  same_at e' s (handle v q s).2.
Proof.
  intros Hother.
  destruct q as [rq tl ti d g ok | rq t u l | c u t | rq t u l | c u];
    cbn [handle subject] in *.
  - assert (Hne : email rq ≠ e') by congruence.
    destruct (check_rate_limit_other v (email rq) tl s e' Hne)
      as (Hotp & Hrate & Hsess).
    destruct v; cbn [Server.send_otp Server.check_rate_limit] in *;
      unfold Main.send_otp, NewMain.send_otp.
    + destruct (Main.check_rate_limit (email rq) tl s) as [[|] s1];
        cbn [fst snd negb] in *; [| repeat split; assumption].
      destruct (Main.send_email _ _ _ ok) as [[|]|]; repeat split; cbn;
        rewrite ?lookup_delete_ne, ?lookup_insert_ne by assumption;
        assumption.
    + destruct (NewMain.check_rate_limit (email rq) tl s) as [[|] s1];
        cbn [fst snd negb] in *; [| repeat split; assumption].
      destruct (NewMain.send_email _ _ _ g ok) as [[|]|]; repeat split; cbn;
        rewrite ?lookup_delete_ne, ?lookup_insert_ne by assumption;
        assumption.
  - assert (Hne : v_email rq ≠ e') by congruence.
    destruct v; cbn [Server.verify_otp];
      unfold Main.verify_otp, NewMain.verify_otp;
      (destruct (otp_store s !! v_email rq) as [r|]; [| apply same_at_refl]);
      (destruct (_ >? _); [| destruct (_ >=? _); [| destruct (negb _)]]);
      repeat split; cbn;
      now rewrite ?lookup_delete_ne, ?lookup_insert_ne by assumption.
  - destruct v; cbn [Server.verify_token_endpoint Server.verify_token] in *;
      unfold Main.verify_token_endpoint, NewMain.verify_token_endpoint;
      cbn zeta.
    + destruct (Main.verify_token u c) as [| e | n];
        (destruct (truthy _); cbn [negb session_of]; [| apply same_at_refl]);
        try apply same_at_refl.
      destruct (user_sessions s !! e); [| apply same_at_refl].
      destruct (_ >? _); [| apply same_at_refl].
      repeat split; cbn. apply lookup_delete_ne. congruence.
    + destruct (NewMain.verify_token u c) as [| e | n];
        (destruct (truthy _); cbn [negb session_of]; [| apply same_at_refl]);
        try apply same_at_refl.
      destruct (user_sessions s !! e); [| apply same_at_refl].
      destruct (_ >? _); [| apply same_at_refl].
      repeat split; cbn. apply lookup_delete_ne. congruence.
  - assert (Hne : r_email rq ≠ e') by congruence.
    destruct v; cbn [Server.refresh_token];
      unfold Main.refresh_token, NewMain.refresh_token;
      (destruct (user_sessions s !! r_email rq); [| apply same_at_refl]);
      destruct (_ >? _); repeat split; cbn;
      now rewrite ?lookup_delete_ne, ?lookup_insert_ne by assumption.
  - destruct v; cbn [Server.logout Server.verify_token] in *;
      unfold Main.logout, NewMain.logout; cbn zeta.
    + destruct (Main.verify_token u c) as [| e | n]; cbn [snd];
        destruct (_ && _); try apply same_at_refl;
        repeat split; cbn. apply lookup_delete_ne. congruence.
    + destruct (NewMain.verify_token u c) as [| e | n]; cbn [snd];
        destruct (bool_decide _); try apply same_at_refl;
        repeat split; cbn. apply lookup_delete_ne. congruence.
Qed.

End Frames.

(** ** Generated codes *)

Lemma pretty_six_digits (n : N) :
  (100000 ≤ n ≤ 999999)%N →
  ∃ c rest, pretty n = String c rest
            ∧ c ≠ "0"%char ∧ String.length rest = 5%nat.
Proof.
  intros Hn. unfold pretty, pretty_N.
  destruct (decide (n = 0%N)) as [-> | _]; [lia |].
  assert (Hdiv : ∀ k m : N, (0 < k)%N → (k * 1 ≤ m)%N → (0 < m / k)%N).
  { intros k m Hk Hm. apply N.div_str_pos. lia. }
  rewrite pretty_N_go_step by lia.
  rewrite pretty_N_go_step by (apply Hdiv; lia).
  rewrite !N.Div0.div_div.
  rewrite pretty_N_go_step by (apply Hdiv; lia).
  rewrite !N.Div0.div_div.
  rewrite pretty_N_go_step by (apply Hdiv; lia).
  rewrite !N.Div0.div_div.
  rewrite pretty_N_go_step by (apply Hdiv; lia).
  rewrite !N.Div0.div_div.
  rewrite pretty_N_go_step by (apply Hdiv; lia).
  rewrite !N.Div0.div_div.
  replace (n / (10 * 10 * 10 * 10 * 10 * 10))%N with 0%N
    by (symmetry; apply N.div_small; lia).
  rewrite pretty_N_go_0.
  eexists _, _. split; [reflexivity |]. split; [| reflexivity].
  assert (Hlead : (1 ≤ n / (10 * 10 * 10 * 10 * 10) ≤ 9)%N).
  { split; [apply N.div_le_lower_bound; lia |].
    apply N.lt_succ_r. apply N.Div0.div_lt_upper_bound. lia. }
  rewrite <- (N.mod_small (n / (10 * 10 * 10 * 10 * 10)) 10) in Hlead by lia.
  unfold pretty_N_char.
  destruct ((n / (10 * 10 * 10 * 10 * 10)) `mod` 10)%N as [|p]; [lia |].
  do 4 (try destruct p as [p|p|]); first [discriminate | lia].
Qed.

Lemma generate_otp_shape draw :
  ∃ c rest, generate_otp draw = String c rest
            ∧ c ≠ "0"%char ∧ String.length rest = 5%nat.
Proof.
  pose proof (randint_range 100000 999999 draw ltac:(lia)) as Hrange.
  unfold generate_otp, str.
  destruct (randint 100000 999999 draw) as [|p|p] eqn:Hn; try lia.
  change (pretty (Z.pos p)) with (pretty (N.pos p)).
  apply pretty_six_digits. lia.
Qed.

(** X3: every code [generate_otp] returns is the decimal numeral of a
    number between 100000 and 999999: six characters, the first of them
    not a zero; and two draws give the same code only when they give the
    same number. *)
Theorem generate_otp_six_digits draw :
  (∃ n, 100000 ≤ n ≤ 999999 ∧ generate_otp draw = str n)
  ∧ String.length (generate_otp draw) = 6%nat
  ∧ (∃ c rest, generate_otp draw = String c rest ∧ c ≠ "0"%char)
  ∧ ∀ draw', generate_otp draw = generate_otp draw' →
      randint 100000 999999 draw = randint 100000 999999 draw'.
Proof.
  pose proof (randint_range 100000 999999 draw ltac:(lia)) as Hrange.
  destruct (generate_otp_shape draw) as (c & rest & Hcode & Hc & Hrest).
  split; [exists (randint 100000 999999 draw); now split |].
  split; [rewrite Hcode; cbn; now rewrite Hrest |].
  split; [now exists c, rest |].
  intros draw' Heq. unfold generate_otp, str in Heq.
  now apply (inj pretty) in Heq.
Qed.

(** ** Invariants of the stores and the status lines *)

Lemma stores_ok_rate e r s :
  stores_ok s → 1 ≤ count r ≤ 3 →
  stores_ok (with_rate_limit_store (<[e := r]>) s).
Proof.
  intros [Hrate Hotp] Hr. split; [| exact Hotp].
  intros e' r'. cbn. rewrite lookup_insert.
  case_decide; [intros [= <-]; exact Hr | apply Hrate].
Qed.

Lemma stores_ok_challenge e r s :
  stores_ok s → 0 ≤ attempts r ≤ 3 → (∃ draw, code r = generate_otp draw) →
  stores_ok (with_otp_store (<[e := r]>) s).
Proof.
  intros [Hrate Hotp] Hattempts Hcode. split; [exact Hrate |].
  intros e' r'. cbn. rewrite lookup_insert.
  case_decide; [intros [= <-]; now split | apply Hotp].
Qed.

Lemma stores_ok_forget e s :
  stores_ok s → stores_ok (with_otp_store (delete e) s).
Proof.
  intros [Hrate Hotp]. split; [exact Hrate |].
  intros e' r'. cbn. rewrite lookup_delete.
  case_decide; [discriminate | apply Hotp].
Qed.

Lemma stores_ok_sessions f s :
  stores_ok s → stores_ok (with_user_sessions f s).
Proof. intros [Hrate Hotp]. split; assumption. Qed.

Lemma stores_ok_check_rate_limit v e t s :
  stores_ok s → stores_ok (Server.check_rate_limit v e t s).2.
Proof.
  intros Hok. rewrite check_rate_limit_same. unfold Main.check_rate_limit.
  destruct (rate_limit_store s !! e) as [r|] eqn:Hr; cbn zeta.
  - destruct (_ >? _); [apply stores_ok_rate; [assumption | cbn; lia] |].
    destruct (Z.geb_spec (count r) 3); [exact Hok |].
    apply stores_ok_rate; [assumption |].
    destruct Hok as [Hrate _]. specialize (Hrate e r Hr). cbn. lia.
  - apply stores_ok_rate; [assumption | cbn; lia].
Qed.

Section Invariants.
Context `{Platform}.

Lemma stores_ok_handle v q s :
  stores_ok s → stores_ok (handle v q s).2.
Proof.
  intros Hok.
  destruct q as [rq tl ti d g ok | rq t u l | c u t | rq t u l | c u];
    cbn [handle].
  - pose proof (stores_ok_check_rate_limit v (email rq) tl s Hok) as Hok1.
    assert (Hissued : ∀ s1, stores_ok s1 →
              stores_ok (with_otp_store (<[email rq := issued rq ti d]>) s1)).
    { intros s1 Hs1. apply stores_ok_challenge; [assumption | cbn; lia |].
      now exists d. }
    destruct v; cbn [Server.send_otp Server.check_rate_limit] in *;
      unfold Main.send_otp, NewMain.send_otp.
    + destruct (Main.check_rate_limit (email rq) tl s) as [[|] s1];
        cbn [fst snd negb] in *; [| assumption].
      destruct (Main.send_email _ _ _ ok) as [[|]|]; cbn [snd];
        [| apply stores_ok_forget |]; now apply Hissued.
    + destruct (NewMain.check_rate_limit (email rq) tl s) as [[|] s1];
        cbn [fst snd negb] in *; [| assumption].
      destruct (NewMain.send_email _ _ _ g ok) as [[|]|]; cbn [snd];
        [| apply stores_ok_forget |]; now apply Hissued.
  - destruct v; cbn [Server.verify_otp];
      unfold Main.verify_otp, NewMain.verify_otp;
      (destruct (otp_store s !! v_email rq) as [r|] eqn:Hr; [| assumption]);
      (destruct (_ >? _); [now apply stores_ok_forget |]);
      (destruct (Z.geb_spec (attempts r) 3); [now apply stores_ok_forget |]);
      (assert (Hbumped : stores_ok
                 (with_otp_store (<[v_email rq := bump_attempts r]>) s))
        by (destruct Hok as [Hrate Hotp];
            destruct (Hotp _ _ Hr) as [Hattempts Hcode];
            apply stores_ok_challenge; [now split | cbn; lia | exact Hcode]));
      destruct (negb _); cbn [snd]; [assumption | | assumption |];
      now apply stores_ok_forget, stores_ok_sessions.
  - destruct v; cbn [Server.verify_token_endpoint];
      unfold Main.verify_token_endpoint, NewMain.verify_token_endpoint;
      cbn zeta; destruct (truthy _); cbn [negb]; try assumption;
      (destruct (session_of _ _); [| assumption]);
      destruct (_ >? _); cbn [snd]; [now apply stores_ok_sessions | assumption
                                    | now apply stores_ok_sessions | assumption].
  - destruct v; cbn [Server.refresh_token];
      unfold Main.refresh_token, NewMain.refresh_token;
      (destruct (user_sessions s !! r_email rq); [| assumption]);
      destruct (_ >? _); cbn [snd]; now apply stores_ok_sessions.
  - destruct v; cbn [Server.logout]; unfold Main.logout, NewMain.logout;
      cbn zeta; cbn [snd].
    + destruct (_ && _); [now apply stores_ok_sessions | assumption].
    + destruct (bool_decide _); [now apply stores_ok_sessions | assumption].
Qed.

(** X4: in every state the server reaches from empty stores, by any
    sequence of requests to its five routes, each rate record has a count
    between 1 and 3 and each pending challenge has between 0 and 3
    attempts and a code that [generate_otp] produced. *)
Theorem reachable_stores_ok v qs : stores_ok (serve v qs empty_state).
Proof.
  assert (Hempty : stores_ok empty_state).
  { split; intros e r; cbn; rewrite lookup_empty; discriminate. }
  unfold serve. revert Hempty. generalize empty_state.
  induction qs as [|q qs IH]; intros s Hs; [exact Hs |].
  cbn [foldl]. apply IH. now apply stores_ok_handle.
Qed.


End Invariants.

(** ** Runs of submissions *)

Section Submissions.
Context `{Platform}.

Lemma submit_eta rq : rq = submit (v_email rq) (otp rq).
Proof. now destruct rq. Qed.

(** The five ways through [verify_otp]. *)
Lemma verify_otp_cases v e x t u l s :
  (otp_store s !! e = None
   ∧ Server.verify_otp v (submit e x) t u l s = (Raise (NoChallenge v), s))
  ∨ ∃ r, otp_store s !! e = Some r
    ∧ ((t > expires r
        ∧ Server.verify_otp v (submit e x) t u l s
          = (Raise (Expired v), with_otp_store (delete e) s))
       ∨ (t ≤ expires r ∧ 3 ≤ attempts r
          ∧ Server.verify_otp v (submit e x) t u l s
            = (Raise (AttemptsExhausted v), with_otp_store (delete e) s))
       ∨ (t ≤ expires r ∧ attempts r < 3 ∧ x ≠ code r
          ∧ Server.verify_otp v (submit e x) t u l s
            = (Raise Mismatch, with_otp_store (<[e := bump_attempts r]>) s))
       ∨ (t ≤ expires r ∧ attempts r < 3 ∧ x = code r
          ∧ ∃ body,
              Server.verify_otp v (submit e x) t u l s
              = (Return body,
                 with_otp_store (delete e)
                   (with_user_sessions
                      (<[e := session_for u l (login_claims e r)]>)
                      (with_otp_store (<[e := bump_attempts r]>) s))))).
Proof.
  destruct (otp_store s !! e) as [r|] eqn:Hr;
    [right; exists r; split; [reflexivity |]
    | left; split; [reflexivity | now apply verify_otp_no_challenge]].
  destruct (Z_gt_le_dec t (expires r)) as [Hlate | Hlive];
    [left; split; [exact Hlate | now apply verify_otp_expired with r] |].
  right.
  destruct (Z_lt_le_dec (attempts r) 3) as [Hleft | Hspent];
    [| left; repeat split; try assumption; now apply verify_otp_exhausted with r].
  right.
  destruct (decide (x = code r)) as [-> | Hwrong].
  - right. repeat split; try assumption.
    destruct (verify_otp_match v e t u l s r Hr Hlive Hleft) as (body & Hb & _).
    now exists body.
  - left. repeat split; try assumption. now apply verify_otp_mismatch.
Qed.

Lemma submission_charges v e x t u l s :
  ((if compared (Server.verify_otp v (submit e x) t u l s).1 then 1 else 0)
   + guesses_left e (Server.verify_otp v (submit e x) t u l s).2
   ≤ guesses_left e s)%nat.
Proof.
  unfold guesses_left.
  destruct (verify_otp_cases v e x t u l s)
    as [[Hnone ->] | (r & Hr & [[_ ->] | [(_ & _ & ->) | [(_ & Hleft & _ & ->)
          | (_ & Hleft & _ & body & ->)]]])];
    cbn [fst snd with_otp_store with_user_sessions otp_store];
    rewrite ?Hnone, ?Hr, ?lookup_delete_eq, ?lookup_insert_eq;
    try (destruct v; cbn; lia).
  all: cbn [compared bump_attempts attempts Mismatch]; cbn; lia.
Qed.

Lemma submissions_without_challenge v e subs s :
  otp_store s !! e = None →
  Forall (λ r, r = Raise (NoChallenge v)) (submissions v e subs s).
Proof.
  intros Hnone. induction subs as [|sub subs IH]; cbn [submissions];
    [constructor |].
  rewrite (verify_otp_no_challenge v e _ _ _ _ s Hnone). cbn [fst snd].
  now constructor.
Qed.

(** X6: over any run of submissions for one identity, with no new
    [/send-otp] in between, the submissions that get as far as the
    comparison of the codes ([Mismatch] or success) number at most 3 minus
    the attempts already charged, none when no challenge is pending; and
    once one has succeeded every later one fails with [NoChallenge]. *)
Theorem at_most_three_comparisons v e subs s :
  (length (List.filter compared (submissions v e subs s)) ≤ guesses_left e s)%nat
  ∧ ∀ before body after,
      submissions v e subs s = before ++ Return body :: after →
      Forall (λ r, r = Raise (NoChallenge v)) after.
Proof.
  revert s. induction subs as [|sub subs IH]; intros s.
  - split; [cbn; lia |]. intros [|? ?] ? ? [=].
  - cbn [submissions]. destruct (IH (Server.verify_otp v (submit e (guess sub))
                                      (at_check sub) (at_utc sub)
                                      (at_login sub) s).2) as [IHn IHs].
    pose proof (submission_charges v e (guess sub) (at_check sub) (at_utc sub)
                  (at_login sub) s) as Hstep.
    split.
    + cbn [List.filter].
      destruct (compared _); cbn [length] in *; lia.
    + intros [|r before] body after.
      * cbn [app]. intros [= Hhead <-].
        apply submissions_without_challenge.
        destruct (verify_otp_cases v e (guess sub) (at_check sub) (at_utc sub)
                    (at_login sub) s)
          as [[_ Heq] | (r & _ & [[_ Heq] | [(_ & _ & Heq) | [(_ & _ & _ & Heq)
                | (_ & _ & _ & body' & Heq)]]])];
          rewrite Heq in Hhead |- *; cbn [fst snd] in *; try discriminate.
        cbn. apply lookup_delete_eq.
      * cbn [app]. intros [= _ Htail]. now apply IHs with before body.
Qed.

(** X7: whenever [verify_otp] raises, the exception is one of
    [NoChallenge], [Expired], [AttemptsExhausted] and [Mismatch] (all
    400), and neither a session nor a rate record has been written or
    changed: a session is written on the successful path only. *)
Theorem failed_verification_writes_no_session v rq t u l s ex :
  (Server.verify_otp v rq t u l s).1 = Raise ex →
  (ex = NoChallenge v ∨ ex = Expired v ∨ ex = AttemptsExhausted v
   ∨ ex = Mismatch)
  ∧ status_of (Server.verify_otp v rq t u l s).1 = 400
  ∧ user_sessions (Server.verify_otp v rq t u l s).2 = user_sessions s
  ∧ rate_limit_store (Server.verify_otp v rq t u l s).2 = rate_limit_store s.
Proof.
  rewrite (submit_eta rq).
  destruct (verify_otp_cases v (v_email rq) (otp rq) t u l s)
    as [[_ ->] | (r & _ & [[_ ->] | [(_ & _ & ->) | [(_ & _ & _ & ->)
          | (_ & _ & _ & body & ->)]]])];
    cbn [fst snd]; intros [= <-]; (split; [tauto |]);
    destruct v; repeat split.
Qed.

End Submissions.

(** ** The life of a session *)

Section SessionLife.
Context `{Platform}.

Lemma refresh_token_no_session v e tr ur lr s :
  user_sessions s !! e = None →
  Server.refresh_token v {| r_email := e |} tr ur lr s
  = (Raise (NoActiveSession v), s).
Proof.
  intros Hnone.
  destruct v; cbn [Server.refresh_token];
    unfold Main.refresh_token, NewMain.refresh_token; cbn [r_email];
    rewrite Hnone; reflexivity.
Qed.

Lemma refresh_token_expired v e tr ur lr s session :
  user_sessions s !! e = Some session →
  tr > session_expires session →
  Server.refresh_token v {| r_email := e |} tr ur lr s
  = (Raise SessionExpired, with_user_sessions (delete e) s).
Proof.
  intros Hsess Hlate.
  destruct v; cbn [Server.refresh_token];
    unfold Main.refresh_token, NewMain.refresh_token; cbn [r_email];
    rewrite Hsess; destruct (Z.gtb_spec tr (session_expires session));
    solve [reflexivity | lia].
Qed.

Lemma logout_stores v tok u s e :
  Server.verify_token v u tok = PStr e →
  e ≠ "" →
  status_of (Server.logout v tok u s).1 = 200
  ∧ user_sessions (Server.logout v tok u s).2 = delete e (user_sessions s)
  ∧ otp_store (Server.logout v tok u s).2 = otp_store s
  ∧ rate_limit_store (Server.logout v tok u s).2 = rate_limit_store s.
Proof.
  intros Hsub Hne. apply truthy_address in Hne.
  destruct v; cbn [Server.logout Server.verify_token] in *;
    unfold Main.logout, NewMain.logout; cbn zeta; rewrite Hsub;
    cbn [session_of]; rewrite ?Hne; cbn [andb];
    (destruct (user_sessions s !! e) as [session|] eqn:Hsess;
     [rewrite bool_decide_eq_true_2 by eauto
     | rewrite bool_decide_eq_false_2 by (intros [? [=]])]);
    cbn; repeat split; now rewrite ?delete_id.
Qed.

(** X8: the token a successful [/verify-otp] hands out is signed with
    [exp] 1800 seconds after the login.  While [jwt.decode] accepts it,
    [/verify-token] accepts it up to 1800 seconds after the login and
    answers [SessionExpired], deleting the session, later; once
    [jwt.decode] refuses it, as it does from that [exp] on,
    [/verify-token] answers [InvalidToken] and the session entry stays
    where it is. *)
Theorem issued_token_dies_with_its_exp v e s r t u l tu tn :
  otp_store s !! e = Some r → t ≤ expires r → attempts r < 3 → e ≠ "" →
  let login := Server.verify_otp v (submit e (code r)) t u l s in
  let issued_token :=
    jwt_encode (<["exp" := PInt (u + 1800)]> (login_claims e r)) JWT_SECRET in
  (∃ body, login.1 = Return body
           ∧ field "access_token" body = Some (JStr issued_token))
  ∧ user_sessions login.2 !! e
    = Some {| token := issued_token; session_expires := l + 1800 |}
  ∧ (∀ payload, jwt_decode tu issued_token JWT_SECRET = Some payload →
       payload !! "sub" = Some (PStr e) →
       (tn ≤ l + 1800 →
        Server.verify_token_endpoint v issued_token tu tn login.2
        = (Return (token_is_valid e), login.2))
       ∧ (tn > l + 1800 →
          Server.verify_token_endpoint v issued_token tu tn login.2
          = (Raise SessionExpired, with_user_sessions (delete e) login.2)))
  ∧ (jwt_decode tu issued_token JWT_SECRET = None →
     Server.verify_token_endpoint v issued_token tu tn login.2
     = (Raise InvalidToken, login.2)).
Proof.
  intros Hr Hlive Hleft Hne login issued_token.
  destruct (verify_otp_match v e t u l s r Hr Hlive Hleft)
    as (body & Hlogin & _ & Htok & _).
  fold login in Hlogin. rewrite Hlogin. cbn [fst snd].
  change (signed u (login_claims e r)) with issued_token in Htok.
  split; [now exists body |].
  set (s' := with_otp_store _ _).
  assert (Hsess : user_sessions s' !! e
                  = Some (session_for u l (login_claims e r))).
  { subst s'. cbn. apply lookup_insert_eq. }
  split; [exact Hsess |].
  split.
  - intros payload Hdecode Hsub.
    pose proof (verify_token_decoded v tu issued_token payload e Hdecode Hsub)
      as Hverified.
    split; intros Htn.
    + now apply verify_token_endpoint_valid
        with (session_for u l (login_claims e r)).
    + now apply verify_token_endpoint_session_expired
        with (session_for u l (login_claims e r)).
  - intros Hrefused. apply verify_token_endpoint_unsigned.
    now rewrite (verify_token_refused v tu issued_token Hrefused).
Qed.

(** X9: [/logout] with a token that verifies for [e] answers 200 and
    leaves [e] without session, whether it had one or not, and touches
    nothing else; after it every token of [e] is answered with
    [NoSession] and a [/refresh-token] for [e] with [NoActiveSession]. *)
Theorem logout_revokes v tok u s e :
  Server.verify_token v u tok = PStr e →
  e ≠ "" →
  let out := Server.logout v tok u s in
  status_of out.1 = 200
  ∧ user_sessions out.2 = delete e (user_sessions s)
  ∧ otp_store out.2 = otp_store s
  ∧ rate_limit_store out.2 = rate_limit_store s
  ∧ (∀ tok' tu tn, Server.verify_token v tu tok' = PStr e →
       Server.verify_token_endpoint v tok' tu tn out.2
       = (Raise (NoSession v), out.2))
  ∧ (∀ tr ur lr,
       Server.refresh_token v {| r_email := e |} tr ur lr out.2
       = (Raise (NoActiveSession v), out.2)).
Proof.
  intros Hsub Hne out.
  destruct (logout_stores v tok u s e Hsub Hne) as (Hstatus & Hsess & Hotp & Hrate).
  fold out in Hstatus, Hsess, Hotp, Hrate.
  assert (Hgone : user_sessions out.2 !! e = None).
  { rewrite Hsess. apply lookup_delete_eq. }
  repeat split; try assumption.
  - intros tok' tu tn Hsub'. now apply verify_token_endpoint_no_session with e.
  - intros tr ur lr. now apply refresh_token_no_session.
Qed.

(** X10: [/logout] with a token that does not verify, an expired one
    included, answers 200 as well and changes nothing: the session of the
    token's owner stays. *)
Theorem logout_needs_a_verifying_token v tok u s :
  Server.verify_token v u tok = PNone →
  status_of (Server.logout v tok u s).1 = 200
  ∧ (Server.logout v tok u s).2 = s.
Proof.
  intros Hsub.
  destruct v; cbn [Server.logout Server.verify_token] in *;
    unfold Main.logout, NewMain.logout; cbn zeta; rewrite Hsub; cbn;
    rewrite ?bool_decide_eq_false_2 by (intros [? [=]]); now split.
Qed.

(** X11: a session that has run out cannot be refreshed: the first
    [/refresh-token] after its expiry answers [SessionExpired] and deletes
    it, and from then on [/refresh-token] answers [NoActiveSession] and
    [/verify-token] answers [NoSession], whatever the clock says. *)
Theorem expired_session_cannot_be_refreshed v e s session tr ur lr :
  user_sessions s !! e = Some session →
  tr > session_expires session →
  e ≠ "" →
  let out := Server.refresh_token v {| r_email := e |} tr ur lr s in
  out = (Raise SessionExpired, with_user_sessions (delete e) s)
  ∧ (∀ tr' ur' lr',
       Server.refresh_token v {| r_email := e |} tr' ur' lr' out.2
       = (Raise (NoActiveSession v), out.2))
  ∧ (∀ tok tu tn, Server.verify_token v tu tok = PStr e →
       Server.verify_token_endpoint v tok tu tn out.2
       = (Raise (NoSession v), out.2)).
Proof.
  intros Hsess Hlate Hne out. subst out.
  rewrite (refresh_token_expired v e tr ur lr s session Hsess Hlate).
  cbn [snd].
  assert (Hgone : user_sessions (with_user_sessions (delete e) s) !! e = None).
  { cbn. apply lookup_delete_eq. }
  split; [reflexivity |]. split.
  - intros tr' ur' lr'. now apply refresh_token_no_session.
  - intros tok tu tn Hsub. now apply verify_token_endpoint_no_session with e.
Qed.

(** X12: [/refresh-token] on a live session asks for no token: it answers
    200 with a new token, stores that same token with an expiry 1800
    seconds after the refresh, and leaves the ledger and the rate store
    alone; a token of the identity that [/verify-token] would have turned
    down as [SessionExpired] at a moment past the old expiry is accepted
    at that moment on the refreshed state. *)
Theorem refresh_extends_session v e s session tr ur lr :
  user_sessions s !! e = Some session →
  tr ≤ session_expires session →
  e ≠ "" →
  let out := Server.refresh_token v {| r_email := e |} tr ur lr s in
  status_of out.1 = 200
  ∧ (∃ body new_token,
       out.1 = Return body
       ∧ field "access_token" body = Some (JStr new_token)
       ∧ user_sessions out.2 !! e
         = Some {| token := new_token; session_expires := lr + 1800 |})
  ∧ otp_store out.2 = otp_store s
  ∧ rate_limit_store out.2 = rate_limit_store s
  ∧ ∀ tok tu tn, Server.verify_token v tu tok = PStr e →
      session_expires session < tn → tn ≤ lr + 1800 →
      (Server.verify_token_endpoint v tok tu tn s).1 = Raise SessionExpired
      ∧ Server.verify_token_endpoint v tok tu tn out.2
        = (Return (token_is_valid e), out.2).
Proof.
  intros Hsess Hlive Hne out. subst out.
  destruct (refresh_token_live v e tr ur lr s session Hsess Hlive)
    as (body & -> & Htok).
  cbn [fst snd].
  assert (Hnew : user_sessions
                   (with_user_sessions
                      (<[e := session_for ur lr (refresh_claims e)]>) s) !! e
                 = Some (session_for ur lr (refresh_claims e))).
  { cbn. apply lookup_insert_eq. }
  split; [reflexivity |].
  split; [exists body, (signed ur (refresh_claims e)); now repeat split |].
  split; [reflexivity |]. split; [reflexivity |].
  intros tok tu tn Hsub Hpast Hnow. split.
  - rewrite (verify_token_endpoint_session_expired v tok e tu tn s session)
      by (try assumption; lia).
    reflexivity.
  - now apply verify_token_endpoint_valid
      with (session_for ur lr (refresh_claims e)).
Qed.

End SessionLife.

(** ** The two variants side by side *)

Section Variants.
Context `{Platform}.



(** X14: which stores a route can change.  [/send-otp] never touches the
    sessions and [/verify-otp] never the rate store; [/verify-token],
    [/refresh-token] and [/logout] never touch the ledger or the rate
    store, and [/verify-token] and [/logout] never add or alter a session:
    every session they leave was there before. *)
Theorem route_frames v q s :
  match q with
  | SendOtp _ _ _ _ _ _ => user_sessions (handle v q s).2 = user_sessions s
  | VerifyOtp _ _ _ _ =>
      rate_limit_store (handle v q s).2 = rate_limit_store s
  | RefreshToken _ _ _ _ =>
      otp_store (handle v q s).2 = otp_store s
      ∧ rate_limit_store (handle v q s).2 = rate_limit_store s
  | VerifyToken _ _ _ | Logout _ _ =>
      otp_store (handle v q s).2 = otp_store s
      ∧ rate_limit_store (handle v q s).2 = rate_limit_store s
      ∧ user_sessions (handle v q s).2 ⊆ user_sessions s
  end.
Proof.
  assert (Hdrop : ∀ email, drop_session email (user_sessions s) ⊆ user_sessions s).
  { intros [| e | n]; cbn; [reflexivity | apply delete_subseteq | reflexivity]. }
  destruct q as [rq tl ti d g ok | rq t u l | c u t | rq t u l | c u];
    cbn [handle].
  - destruct (check_rate_limit_frame v (email rq) tl s) as [_ Hsess].
    destruct v; cbn [Server.send_otp Server.check_rate_limit] in *;
      unfold Main.send_otp, NewMain.send_otp.
    + destruct (Main.check_rate_limit (email rq) tl s) as [[|] s1];
        cbn [fst snd negb] in *; [| assumption].
      destruct (Main.send_email _ _ _ ok) as [[|]|]; assumption.
    + destruct (NewMain.check_rate_limit (email rq) tl s) as [[|] s1];
        cbn [fst snd negb] in *; [| assumption].
      destruct (NewMain.send_email _ _ _ g ok) as [[|]|]; assumption.
  - destruct v; cbn [Server.verify_otp];
      unfold Main.verify_otp, NewMain.verify_otp;
      (destruct (otp_store s !! v_email rq) as [r|]; [| reflexivity]);
      (destruct (_ >? _); [| destruct (_ >=? _); [| destruct (negb _)]]);
      reflexivity.
  - destruct v; cbn [Server.verify_token_endpoint];
      unfold Main.verify_token_endpoint, NewMain.verify_token_endpoint;
      cbn zeta; destruct (truthy _); cbn [negb]; try (now repeat split);
      (destruct (session_of _ _); [| now repeat split]);
      destruct (_ >? _); repeat split; cbn; auto.
  - destruct v; cbn [Server.refresh_token];
      unfold Main.refresh_token, NewMain.refresh_token;
      (destruct (user_sessions s !! r_email rq); [| now split]);
      destruct (_ >? _); now split.
  - destruct v; cbn [Server.logout]; unfold Main.logout, NewMain.logout;
      cbn zeta; cbn [snd].
    + destruct (_ && _); repeat split; cbn; auto.
    + destruct (bool_decide _); repeat split; cbn; auto.
Qed.

End Variants.

(** ** Sending again, a transport without credentials, and the edges *)

Section Edges.
Context `{Platform}.

(** X15: an admitted [/send-otp] whose mail goes out replaces whatever
    challenge the identity had: the ledger then holds the new code with no
    attempt charged and 300 seconds to live, so three comparisons are
    open again, and any other code, the earlier one included, is turned
    down as [Mismatch]. *)
Theorem resend_replaces_challenge v rq tl ti d g ok s :
  (Server.check_rate_limit v (email rq) tl s).1 = true →
  Server.send_email v (email rq) (generate_otp d) (name rq) g ok = Return true →
  let out := Server.send_otp v rq tl ti d g ok s in
  status_of out.1 = 200
  ∧ otp_store out.2 !! email rq
    = Some {| code := generate_otp d; expires := ti + 300; attempts := 0;
              user_name := name rq; company := req_company rq |}
  ∧ guesses_left (email rq) out.2 = 3%nat
  ∧ ∀ x t u l, x ≠ generate_otp d → t ≤ ti + 300 →
      (Server.verify_otp v (submit (email rq) x) t u l out.2).1 = Raise Mismatch.
Proof.
  intros Hadm Hsend out. subst out.
  destruct (send_otp_sent v rq tl ti d g ok s Hadm Hsend) as (body & -> & _).
  cbn [fst snd].
  set (s1 := with_otp_store _ _).
  assert (Hissued : otp_store s1 !! email rq = Some (issued rq ti d)).
  { subst s1. cbn. apply lookup_insert_eq. }
  split; [reflexivity |]. split; [exact Hissued |].
  split; [unfold guesses_left; now rewrite Hissued |].
  intros x t u l Hwrong Hlive.
  rewrite (verify_otp_mismatch v (email rq) x t u l s1 (issued rq ti d));
    try assumption; [reflexivity | cbn; lia].
Qed.

(** X16: in [newMain.py], with [GMAIL_TOKEN] unset or empty, an admitted
    [/send-otp] ends in the [RuntimeError] of [get_gmail_service]: the
    client gets a 500 that is not [SendFailed], the rate admission is
    spent, and the challenge written before the send stays in the ledger
    with its three comparisons open. *)
Theorem send_without_credentials rq tl ti d g ok s :
  g = None ∨ g = Some "" →
  (NewMain.check_rate_limit (email rq) tl s).1 = true →
  let out := NewMain.send_otp rq tl ti d g ok s in
  out.1 = Raise (RuntimeError "❌ GMAIL_TOKEN env variable not set")
  ∧ status_of out.1 = 500
  ∧ out.1 ≠ Raise SendFailed
  ∧ otp_store out.2 !! email rq = Some (issued rq ti d)
  ∧ guesses_left (email rq) out.2 = 3%nat
  ∧ rate_limit_store out.2
    = rate_limit_store (NewMain.check_rate_limit (email rq) tl s).2.
Proof.
  intros Hg Hadm out. subst out. unfold NewMain.send_otp.
  destruct (NewMain.check_rate_limit (email rq) tl s) as [adm s1].
  cbn [fst snd] in *. subst adm. cbn [negb].
  assert (Hraise : NewMain.send_email (email rq) (generate_otp d) (name rq) g ok
                   = Raise (RuntimeError "❌ GMAIL_TOKEN env variable not set")).
  { destruct Hg as [-> | ->]; reflexivity. }
  rewrite Hraise. cbn [fst snd].
  assert (Hissued : otp_store
                      (with_otp_store (<[email rq := issued rq ti d]>) s1)
                      !! email rq = Some (issued rq ti d)).
  { cbn. apply lookup_insert_eq. }
  repeat split; try exact Hissued; try discriminate.
  unfold guesses_left. fold (issued rq ti d). now rewrite Hissued.
Qed.

(** X17: the three time limits are inclusive.  A code submitted at the
    very second its challenge expires is still accepted; a request exactly
    900 seconds after the stored timestamp still counts in the old window
    (denied at count 3, counted below); a token presented at the very
    second its session expires is still valid. *)
Theorem limits_are_inclusive v e s r rate session tok tu u l :
  otp_store s !! e = Some r → attempts r < 3 →
  rate_limit_store s !! e = Some rate →
  user_sessions s !! e = Some session →
  Server.verify_token v tu tok = PStr e → e ≠ "" →
  status_of (Server.verify_otp v (submit e (code r)) (expires r) u l s).1 = 200
  ∧ Server.check_rate_limit v e (last_request rate + 900) s
    = (if count rate <? 3
       then (true, with_rate_limit_store
                     (<[e := {| last_request := last_request rate + 900;
                                count := count rate + 1 |}]>) s)
       else (false, s))
  ∧ Server.verify_token_endpoint v tok tu (session_expires session) s
    = (Return (token_is_valid e), s).
Proof.
  intros Hr Hleft Hrate Hsess Hsub Hne.
  split; [| split].
  - destruct (verify_otp_match v e (expires r) u l s r Hr ltac:(lia) Hleft)
      as (body & -> & _).
    reflexivity.
  - destruct (Z.ltb_spec (count rate) 3).
    + now apply check_rate_limit_within; [| lia |].
    + now apply check_rate_limit_full with rate; [| lia |].
  - now apply verify_token_endpoint_valid with session; [| | | lia].
Qed.

End Edges.

(** ** Closed runs for the further properties *)

Section MoreRuns.
#[local] Existing Instance demo_platform.

Lemma request_touches_own_identity_only_witness :
  same_at "b@x.com" (pending_state main_py)
    (handle main_py (SendOtp alice_request 60 60 54321 None false)
       (pending_state main_py)).2.
Proof.
  apply (@request_touches_own_identity_only demo_platform main_py
           (SendOtp alice_request 60 60 54321 None false)
           (pending_state main_py) "b@x.com").
  discriminate.
Defined.

Lemma failed_verification_writes_no_session_witness :
  user_sessions
    (Server.verify_otp newMain_py (submit alice "000000") 10 10 10
       (pending_state newMain_py)).2
  = user_sessions (pending_state newMain_py).
Proof.
  apply (@failed_verification_writes_no_session demo_platform newMain_py
           (submit alice "000000") 10 10 10 (pending_state newMain_py) Mismatch).
  reflexivity.
Defined.

Lemma issued_token_dies_with_its_exp_witness :
  Server.verify_token_endpoint main_py login_token 1809 1809
    (logged_in_state main_py)
  = (Return (token_is_valid alice), logged_in_state main_py)
  ∧ Server.verify_token_endpoint main_py login_token 1810 1810
      (logged_in_state main_py)
    = (Raise InvalidToken, logged_in_state main_py)
  ∧ is_Some (user_sessions (logged_in_state main_py) !! alice).
Proof.
  pose proof (@issued_token_dies_with_its_exp demo_platform main_py alice
                (pending_state main_py) (issued alice_request 0 12345)
                10 10 10) as Hrun.
  split; [| split].
  - specialize (Hrun 1809 1809).
    refine (proj1 (proj1 (proj2 (proj2 (Hrun _ _ _ _)))
                     (<["sub" := PStr alice]> (<["exp" := PInt 1810]> ∅)) _ _) _);
      try (vm_compute; reflexivity);
      try (intros Heq; vm_compute in Heq; discriminate);
      cbn; lia.
  - specialize (Hrun 1810 1810).
    refine (proj2 (proj2 (proj2 (Hrun _ _ _ _))) _);
      try (vm_compute; reflexivity);
      try (intros Heq; vm_compute in Heq; discriminate);
      cbn; lia.
  - vm_compute. eauto.
Defined.

Lemma logout_revokes_witness :
  Server.verify_token_endpoint main_py long_token 40 40
    (Server.logout main_py login_token 20 (logged_in_state main_py)).2
  = (Raise (NoSession main_py),
     (Server.logout main_py login_token 20 (logged_in_state main_py)).2).
Proof.
  refine (proj1 (proj2 (proj2 (proj2 (proj2
            (@logout_revokes demo_platform main_py login_token 20
               (logged_in_state main_py) alice _ _)))))
            long_token 40 40 _);
    first [discriminate | reflexivity].
Defined.

Lemma logout_needs_a_verifying_token_witness :
  (Server.logout newMain_py login_token 2000 (logged_in_state newMain_py)).2
  = logged_in_state newMain_py.
Proof.
  apply (@logout_needs_a_verifying_token demo_platform newMain_py
           login_token 2000 (logged_in_state newMain_py)).
  reflexivity.
Defined.

Lemma expired_session_cannot_be_refreshed_witness :
  Server.refresh_token main_py {| r_email := alice |} 2000 2000 2000
    (logged_in_state main_py)
  = (Raise SessionExpired,
     with_user_sessions (delete alice) (logged_in_state main_py)).
Proof.
  refine (proj1
            (@expired_session_cannot_be_refreshed demo_platform main_py alice
               (logged_in_state main_py)
               {| token := login_token; session_expires := 1810 |}
               2000 2000 2000 _ _ _));
    first [discriminate | reflexivity | cbn; lia].
Defined.

Lemma refresh_extends_session_witness :
  status_of
    (Server.refresh_token newMain_py {| r_email := alice |} 1000 1000 1000
       (logged_in_state newMain_py)).1
  = 200.
Proof.
  refine (proj1
            (@refresh_extends_session demo_platform newMain_py alice
               (logged_in_state newMain_py)
               {| token := login_token; session_expires := 1810 |}
               1000 1000 1000 _ _ _));
    first [discriminate | reflexivity | cbn; lia].
Defined.


Lemma resend_replaces_challenge_witness :
  guesses_left alice
    (Server.send_otp main_py alice_request 60 60 54321 None true
       (wrong_guesses main_py ["000000"; "111111"] (pending_state main_py))).2
  = 3%nat.
Proof.
  apply (@resend_replaces_challenge demo_platform main_py alice_request
           60 60 54321 None true
           (wrong_guesses main_py ["000000"; "111111"] (pending_state main_py)));
    reflexivity.
Defined.

Lemma send_without_credentials_witness :
  otp_store (NewMain.send_otp alice_request 0 0 12345 None true empty_state).2
    !! alice
  = Some (issued alice_request 0 12345).
Proof.
  apply (@send_without_credentials demo_platform alice_request 0 0 12345 None true empty_state);
    [now left | reflexivity].
Defined.

Lemma limits_are_inclusive_witness :
  status_of
    (Server.verify_otp main_py (submit alice "154321") 320 320 320
       (returning_state main_py)).1
  = 200.
Proof.
  refine (proj1
            (@limits_are_inclusive demo_platform main_py alice
               (returning_state main_py) (issued alice_request 20 54321)
               {| last_request := 20; count := 2 |}
               {| token := login_token; session_expires := 1810 |}
               login_token 30 320 320 _ _ _ _ _ _));
    first [discriminate | reflexivity | cbn; lia].
Defined.

End MoreRuns.

(** ** Reachable states *)

Section Reachable.
Context `{Platform}.

Lemma rate_store_handle v q s :
  rate_limit_store (handle v q s).2
  = match q with
    | SendOtp rq tl _ _ _ _ =>
        rate_limit_store (Server.check_rate_limit v (email rq) tl s).2
    | _ => rate_limit_store s
    end.
Proof.
  destruct q as [rq tl ti d g ok | rq t u l | c u t | rq t u l | c u];
    cbn [handle].
  - destruct v; cbn [Server.send_otp Server.check_rate_limit];
      unfold Main.send_otp, NewMain.send_otp.
    + destruct (Main.check_rate_limit (email rq) tl s) as [[|] s1];
        cbn [fst snd negb]; [| reflexivity].
      destruct (Main.send_email _ _ _ ok) as [[|]|]; reflexivity.
    + destruct (NewMain.check_rate_limit (email rq) tl s) as [[|] s1];
        cbn [fst snd negb]; [| reflexivity].
      destruct (NewMain.send_email _ _ _ g ok) as [[|]|]; reflexivity.
  - destruct v; cbn [Server.verify_otp];
      unfold Main.verify_otp, NewMain.verify_otp;
      (destruct (otp_store s !! v_email rq) as [r|]; [| reflexivity]);
      (destruct (_ >? _); [| destruct (_ >=? _); [| destruct (negb _)]]);
      reflexivity.
  - destruct v; cbn [Server.verify_token_endpoint];
      unfold Main.verify_token_endpoint, NewMain.verify_token_endpoint;
      cbn zeta; destruct (truthy _); cbn [negb]; try reflexivity;
      (destruct (session_of _ _); [| reflexivity]);
      destruct (_ >? _); reflexivity.
  - destruct v; cbn [Server.refresh_token];
      unfold Main.refresh_token, NewMain.refresh_token;
      (destruct (user_sessions s !! r_email rq); [| reflexivity]);
      destruct (_ >? _); reflexivity.
  - destruct v; cbn [Server.logout]; unfold Main.logout, NewMain.logout;
      cbn zeta; cbn [snd].
    + destruct (_ && _); reflexivity.
    + destruct (bool_decide _); reflexivity.
Qed.

Lemma check_rate_limit_keeps_records v e t s e' :
  (is_Some (rate_limit_store s !! e') →
   is_Some (rate_limit_store (Server.check_rate_limit v e t s).2 !! e'))
  ∧ is_Some (rate_limit_store (Server.check_rate_limit v e t s).2 !! e).
Proof.
  rewrite check_rate_limit_same. unfold Main.check_rate_limit.
  assert (Hwritten : ∀ r',
            (is_Some (rate_limit_store s !! e') →
             is_Some (<[e := r']> (rate_limit_store s) !! e'))
            ∧ is_Some (<[e := r']> (rate_limit_store s) !! e)).
  { intros r'. split; [intros Hsome | rewrite lookup_insert_eq; eauto].
    rewrite lookup_insert. case_decide; eauto. }
  destruct (rate_limit_store s !! e) as [r|] eqn:Hr; cbn zeta;
    [destruct (_ >? _); [| destruct (_ >=? _)] |]; cbn;
    try apply Hwritten.
  split; [tauto | rewrite Hr; eauto].
Qed.

(** X19: a rate record, once written, is never removed: over any sequence
    of requests every identity that had a rate record still has one, and
    after a [/send-otp], admitted or denied and whatever became of the
    mail, the address it named has one. *)
Theorem rate_records_are_never_removed v qs s e :
  (is_Some (rate_limit_store s !! e) →
   is_Some (rate_limit_store (serve v qs s) !! e))
  ∧ ∀ rq tl ti d g ok,
      is_Some (rate_limit_store
                 (handle v (SendOtp rq tl ti d g ok) (serve v qs s)).2
               !! email rq).
Proof.
  split.
  - revert s. induction qs as [|q qs IH]; intros s Hsome; [exact Hsome |].
    change (serve v (q :: qs) s) with (serve v qs (handle v q s).2).
    apply IH. rewrite rate_store_handle.
    destruct q; try exact Hsome.
    now apply check_rate_limit_keeps_records.
  - intros rq tl ti d g ok. rewrite rate_store_handle.
    apply (check_rate_limit_keeps_records v (email rq) tl _ (email rq)).
Qed.

Lemma reachable_codes v qs e r :
  otp_store (serve v qs empty_state) !! e = Some r →
  ∃ draw, code r = generate_otp draw.
Proof.
  assert (Hok : stores_ok (serve v qs empty_state)).
  { assert (Hempty : stores_ok empty_state)
      by (split; intros e0 r0; cbn; rewrite lookup_empty; discriminate).
    unfold serve. revert Hempty. generalize empty_state.
    induction qs as [|q qs IH]; intros s Hs; [exact Hs |].
    cbn [foldl]. apply IH. now apply stores_ok_handle. }
  intros Hr. destruct Hok as [_ Hotp]. now apply (Hotp e r).
Qed.

(** X20: in every state the server reaches from empty stores, a
    submission to [/verify-otp] of a string that [generate_otp] never
    returns, such as the [000000] of [test_invalid_otp], is answered with
    400 and writes no session. *)
Theorem ungenerated_code_is_rejected v qs e x t u l :
  (∀ draw, x ≠ generate_otp draw) →
  status_of (Server.verify_otp v (submit e x) t u l (serve v qs empty_state)).1
  = 400
  ∧ user_sessions
      (Server.verify_otp v (submit e x) t u l (serve v qs empty_state)).2
    = user_sessions (serve v qs empty_state).
Proof.
  intros Hnever.
  destruct (verify_otp_cases v e x t u l (serve v qs empty_state))
    as [[_ ->] | (r & Hr & [[_ ->] | [(_ & _ & ->) | [(_ & _ & _ & ->)
          | (_ & _ & Hx & _)]]])];
    try (destruct v; now split).
  exfalso. destruct (reachable_codes v qs e r Hr) as [draw Hcode].
  apply (Hnever draw). congruence.
Qed.

End Reachable.

Lemma ungenerated_code_is_rejected_witness :
  status_of
    (@Server.verify_otp demo_platform main_py (submit "test@example.com" "000000")
       30 30 30
       (@serve demo_platform main_py
          [SendOtp {| email := "test@example.com"; name := Some "Test User";
                      req_company := Some "Test Company" |}
             0 0 12345 None true]
          empty_state)).1
  = 400.
Proof.
  apply (@ungenerated_code_is_rejected demo_platform main_py
           [SendOtp {| email := "test@example.com"; name := Some "Test User";
                       req_company := Some "Test Company" |}
              0 0 12345 None true]
           "test@example.com" "000000" 30 30 30).
  intros draw Heq.
  destruct (generate_otp_shape draw) as (c & rest & Hcode & Hc & _).
  rewrite Hcode in Heq. injection Heq as <- _. now apply Hc.
Defined.
